(** * ledSpeak: the packet codec of [ledSpeak.py]

    A shallow embedding of the [ledSpeakPacket] class and of its two pixel
    drivers ([ledSpeakPacketWs2812], [ledSpeakPacketP9813]), together with
    the parts of Python's [struct] and [binascii] modules they call.

    Python integers are [Z]; a [bytes] object is a list of [Byte.byte];
    a tuple of integers is a list of [Z]; an instance of [ledSpeakPacket]
    is a record of its attributes, threaded through the methods by a state
    monad in which an exception leaves the attributes assigned so far. *)

From Stdlib Require Import ZArith List Lia Bool Permutation.
From Stdlib.Strings Require Import Byte.
From Stdlib Require String Ascii DecimalString.
Import ListNotations.
Import String.StringSyntax.
Delimit Scope string_scope with string.
Open Scope Z_scope.

(** ** Python values *)

Definition bytes := list byte.

(** A tuple of integers, as [struct.unpack_from] and the pixel decoders
    return it. Two tuples are equal when they have the same length and the
    same items, which is equality of lists. *)
Definition tuple := list Z.

(** A pixel as the senders write it: [(r, g, b)]. *)
Definition pixel := (Z * Z * Z)%type.

Definition tuple_of_pixel (p : pixel) : tuple :=
  let '(r, g, b) := p in [r; g; b].

(** The integer a byte yields when a [bytes] object is iterated. *)
Definition byte_val (b : byte) : Z := Z.of_N (Byte.to_N b).

Definition byte_of (z : Z) : byte :=
  match Byte.of_N (Z.to_N z) with
  | Some b => b
  | None => x00
  end.

(** [len] of a bytes object, as a Python integer. *)
Definition len {A} (l : list A) : Z := Z.of_nat (length l).

(** ** Exceptions and results *)

Inductive exn := struct_error | ValueError.

Inductive result (A : Type) :=
| Ok (a : A)
| Raise (e : exn).
Arguments Ok {A} a.
Arguments Raise {A} e.

Definition rbind {A B} (r : result A) (k : A -> result B) : result B :=
  match r with
  | Ok a => k a
  | Raise e => Raise e
  end.

(** A list comprehension whose body may raise: the first exception ends it. *)
Fixpoint mapM {A B} (f : A -> result B) (l : list A) : result (list B) :=
  match l with
  | [] => Ok []
  | x :: t =>
      rbind (f x) (fun y => rbind (mapM f t) (fun ys => Ok (y :: ys)))
  end.

(** ** The [struct] module, big-endian formats ['>...'] with the codes
    [B], [H] and [I] *)

Module struct.

Inductive code := B | H | I.

Definition size (c : code) : nat :=
  match c with B => 1 | H => 2 | I => 4 end%nat.

Definition calcsize (fmt : list code) : nat :=
  fold_right (fun c n => (size c + n)%nat) 0%nat fmt.

(** The [n] big-endian bytes of [x]. *)
Fixpoint be_bytes (n : nat) (x : Z) : bytes :=
  match n with
  | O => []
  | S m => be_bytes m (x / 256) ++ [byte_of (x mod 256)]
  end.

(** The unsigned integer a big-endian byte string denotes. *)
Definition be_uint (l : bytes) : Z :=
  fold_left (fun acc b => acc * 256 + byte_val b) l 0.

(** One field: [struct.error] unless [0 <= v < 256 ^ size]. *)
Definition pack_field (c : code) (v : Z) : result bytes :=
  if (0 <=? v) && (v <? 256 ^ Z.of_nat (size c))
  then Ok (be_bytes (size c) v)
  else Raise struct_error.

(** [struct.pack(fmt, *vs)]; a wrong number of arguments is a
    [struct.error] too. *)
Fixpoint pack (fmt : list code) (vs : list Z) : result bytes :=
  match fmt, vs with
  | [], [] => Ok []
  | c :: fmt', v :: vs' =>
      rbind (pack_field c v) (fun h =>
      rbind (pack fmt' vs') (fun t => Ok (h ++ t)))
  | _, _ => Raise struct_error
  end.

Fixpoint unpack_fields (fmt : list code) (data : bytes) : tuple :=
  match fmt with
  | [] => []
  | c :: fmt' =>
      be_uint (firstn (size c) data) :: unpack_fields fmt' (skipn (size c) data)
  end.

(** [struct.unpack_from(fmt, data, offset)]: [struct.error] when fewer
    than [calcsize fmt] bytes are left at [offset]; nothing is read
    beyond the buffer. *)
Definition unpack_from (fmt : list code) (data : bytes) (offset : nat)
  : result tuple :=
  if (offset + calcsize fmt <=? length data)%nat
  then Ok (unpack_fields fmt (skipn offset data))
  else Raise struct_error.

End struct.

(** ** [binascii.crc32]

    The library function is the CRC-32 of zlib (ISO-HDLC): reflected
    polynomial [0xEDB88320], register preset to [0xFFFFFFFF], result
    complemented. It is given here by its bit-serial definition. *)

Module binascii.

Definition POLY : Z := 0xEDB88320.

Definition crc_step (c : Z) : Z :=
  if Z.odd c then Z.lxor (Z.shiftr c 1) POLY else Z.shiftr c 1.

Definition crc_byte (c : Z) (b : byte) : Z :=
  Nat.iter 8 crc_step (Z.lxor c (byte_val b)).

Definition crc_update (c : Z) (data : bytes) : Z :=
  fold_left crc_byte data c.

Definition crc32 (data : bytes) : Z :=
  Z.lxor (crc_update 0xFFFFFFFF data) 0xFFFFFFFF.

End binascii.

(** ** Instances of [ledSpeakPacket] *)

Record ledSpeakPacket := mkPacket {
  flags : Z;
  seq : Z;
  rcvdLen : option Z;
  payloadLen : option Z;
  payloadCrc : option Z;
  payloadSeq : option Z;
  msgType : option Z;
  payloadFbLen : option tuple;
  fb : option (list tuple);
  localCrc : option Z
}.

(** [__init__]: the attributes [unpack] assigns do not exist yet.
    The method [setFlags] is declared without a [self] parameter, so no call
    of it on an instance can assign [flags]; it has no counterpart here. *)
Definition init : ledSpeakPacket :=
  mkPacket 0 0 None None None None None None None None.

Module MSG_TYPE.
Definition PANIC : Z := 0x00.
Definition CONFIG_SELECT : Z := 0x01.
Definition CONFIG_LENGTH : Z := 0x02.
Definition CONFIG_SCALING : Z := 0x03.
Definition CONFIG_STEP_SIZE : Z := 0x04.
Definition CONFIG_STEP_MOD : Z := 0x05.
Definition CONFIG_STRING_FX : Z := 0x06.
Definition CONFIG_PIXEL_FX : Z := 0x07.
Definition CONFIG_STRING_OPTION : Z := 0x08.
Definition FB_RAW : Z := 0x10.
Definition FB_PACKED : Z := 0x11.
Definition FB_DELTA : Z := 0x12.
Definition FB_TIMED : Z := 0x13.
End MSG_TYPE.

(** Attribute assignment [self.x = v]. *)
Definition set_flags v (o : ledSpeakPacket) :=
  mkPacket v (seq o) (rcvdLen o) (payloadLen o) (payloadCrc o) (payloadSeq o)
           (msgType o) (payloadFbLen o) (fb o) (localCrc o).
Definition set_seq v (o : ledSpeakPacket) :=
  mkPacket (flags o) v (rcvdLen o) (payloadLen o) (payloadCrc o) (payloadSeq o)
           (msgType o) (payloadFbLen o) (fb o) (localCrc o).
Definition set_rcvdLen v (o : ledSpeakPacket) :=
  mkPacket (flags o) (seq o) (Some v) (payloadLen o) (payloadCrc o) (payloadSeq o)
           (msgType o) (payloadFbLen o) (fb o) (localCrc o).
Definition set_payloadLen v (o : ledSpeakPacket) :=
  mkPacket (flags o) (seq o) (rcvdLen o) (Some v) (payloadCrc o) (payloadSeq o)
           (msgType o) (payloadFbLen o) (fb o) (localCrc o).
Definition set_payloadCrc v (o : ledSpeakPacket) :=
  mkPacket (flags o) (seq o) (rcvdLen o) (payloadLen o) (Some v) (payloadSeq o)
           (msgType o) (payloadFbLen o) (fb o) (localCrc o).
Definition set_payloadSeq v (o : ledSpeakPacket) :=
  mkPacket (flags o) (seq o) (rcvdLen o) (payloadLen o) (payloadCrc o) (Some v)
           (msgType o) (payloadFbLen o) (fb o) (localCrc o).
Definition set_msgType v (o : ledSpeakPacket) :=
  mkPacket (flags o) (seq o) (rcvdLen o) (payloadLen o) (payloadCrc o) (payloadSeq o)
           (Some v) (payloadFbLen o) (fb o) (localCrc o).
Definition set_payloadFbLen v (o : ledSpeakPacket) :=
  mkPacket (flags o) (seq o) (rcvdLen o) (payloadLen o) (payloadCrc o) (payloadSeq o)
           (msgType o) (Some v) (fb o) (localCrc o).
Definition set_fb v (o : ledSpeakPacket) :=
  mkPacket (flags o) (seq o) (rcvdLen o) (payloadLen o) (payloadCrc o) (payloadSeq o)
           (msgType o) (payloadFbLen o) (Some v) (localCrc o).
Definition set_localCrc v (o : ledSpeakPacket) :=
  mkPacket (flags o) (seq o) (rcvdLen o) (payloadLen o) (payloadCrc o) (payloadSeq o)
           (msgType o) (payloadFbLen o) (fb o) (Some v).

(** ** Methods: a computation on the instance that returns or raises *)

Definition M (A : Type) := ledSpeakPacket -> result A * ledSpeakPacket.

Definition ret {A} (a : A) : M A := fun o => (Ok a, o).

Definition bind {A B} (m : M A) (k : A -> M B) : M B :=
  fun o =>
    match m o with
    | (Ok a, o') => k a o'
    | (Raise e, o') => (Raise e, o')
    end.

Definition lift {A} (r : result A) : M A := fun o => (r, o).
Definition get {A} (f : ledSpeakPacket -> A) : M A := fun o => (Ok (f o), o).
Definition assign (f : ledSpeakPacket -> ledSpeakPacket) : M unit :=
  fun o => (Ok tt, f o).

Notation "x <- m ;; k" := (bind m (fun x => k))
  (at level 61, m at next level, right associativity).
Notation "m ;;; k" := (bind m (fun _ => k))
  (at level 61, right associativity).

(** ** The pixel drivers *)

(** [zip] over three references to one iterator of [packedFrame]:
    consecutive groups of three items; an incomplete last group is dropped. *)
Fixpoint zip3 {A} (l : list A) : list (A * A * A) :=
  match l with
  | a :: b :: c :: t => (a, b, c) :: zip3 t
  | _ => []
  end.

(** The same with four references: groups of four items. *)
Fixpoint zip4 {A} (l : list A) : list (A * A * A * A) :=
  match l with
  | a :: b :: c :: d :: t => (a, b, c, d) :: zip4 t
  | _ => []
  end.

Module Ws2812.

Definition packPixels (pixels : list pixel) : result bytes :=
  rbind (mapM (fun '(r, g, b) => struct.pack [struct.B; struct.B; struct.B] [g; r; b])
              pixels)
        (fun packedFrame => Ok (concat packedFrame)).

Definition unpackPixels (packedFrame : bytes) : list tuple :=
  map (fun '(g, r, b) => [r; g; b]) (zip3 (map byte_val packedFrame)).

End Ws2812.

Module P9813.

Definition pixelHeader (r g b : Z) : Z :=
  let f_b := Z.land 0x30 (Z.shiftr b 2) in
  let f_g := Z.land 0x0C (Z.shiftr g 4) in
  let f_r := Z.land 0x03 (Z.shiftr r 6) in
  Z.lxor (Z.lxor (Z.lxor 0xff f_b) f_g) f_r.

Definition packPixels (pixels : list pixel) : result bytes :=
  rbind (mapM (fun '(r, g, b) =>
                 struct.pack [struct.B; struct.B; struct.B; struct.B]
                             [pixelHeader r g b; b; g; r])
              pixels)
        (fun packedFrame => Ok (concat packedFrame)).

Definition unpackPixels (packedFrame : bytes) : list tuple :=
  map (fun '(h, g, r, b) => [h; r; g; b]) (zip4 (map byte_val packedFrame)).

End P9813.

(** The two subclasses of [ledSpeakPacket] differ in these two methods. *)
Record driver := mkDriver {
  packPixels : list pixel -> result bytes;
  unpackPixels : bytes -> list tuple
}.

Definition ledSpeakPacketWs2812 : driver :=
  mkDriver Ws2812.packPixels Ws2812.unpackPixels.

Definition ledSpeakPacketP9813 : driver :=
  mkDriver P9813.packPixels P9813.unpackPixels.

(** ** The methods of the base class *)

Definition calcCrc (data : bytes) : Z := binascii.crc32 data.

Definition packRawFrame (drv : driver) (pixels : list pixel) : M bytes :=
  pixelData <- lift (packPixels drv pixels) ;;
  lenField <- lift (struct.pack [struct.I] [len pixelData]) ;;
  let rawFrameBuffer := lenField ++ pixelData in
  s <- get seq ;;
  f <- get flags ;;
  head <- lift (struct.pack [struct.H; struct.B; struct.B] [s; f; MSG_TYPE.FB_RAW]) ;;
  let payLoad := head ++ rawFrameBuffer in
  envelope <- lift (struct.pack [struct.I; struct.I] [len payLoad; calcCrc payLoad]) ;;
  let packetData := envelope ++ payLoad in
  assign (set_seq (s + 1)) ;;;
  ret packetData.

Definition unpack (drv : driver) (packetData : bytes) : M unit :=
  assign (set_rcvdLen (len packetData)) ;;;
  t <- lift (struct.unpack_from [struct.I; struct.I] packetData 0) ;;
  match t with
  | [a; b] => assign (set_payloadLen a) ;;; assign (set_payloadCrc b)
  | _ => lift (Raise ValueError)
  end ;;;
  t <- lift (struct.unpack_from [struct.H; struct.B; struct.B] packetData 8) ;;
  match t with
  | [a; b; c] =>
      assign (set_payloadSeq a) ;;; assign (set_flags b) ;;; assign (set_msgType c)
  | _ => lift (Raise ValueError)
  end ;;;
  t <- lift (struct.unpack_from [struct.I] packetData 12) ;;
  assign (set_payloadFbLen t) ;;;
  assign (set_fb (unpackPixels drv (skipn 16 packetData))) ;;;
  assign (set_localCrc (calcCrc (skipn 8 packetData))).

(** ** Sample inputs *)

Definition ascii_bytes (l : list Z) : bytes := map byte_of l.

Definition framePixels : list pixel := [(255,0,0); (0,255,0); (0,0,255)].

(** ** Definitions used in the statements *)

(** An 8-bit channel value, and a pixel of three of them. *)
Definition chan8 (x : Z) : Prop := 0 <= x <= 255.

Definition pixel8 (p : pixel) : Prop :=
  let '(r, g, b) := p in chan8 r /\ chan8 g /\ chan8 b.

(** The integers each driver puts on the wire for one pixel. *)
Definition ws2812_wire (p : pixel) : list Z := let '(r, g, b) := p in [g; r; b].

Definition p9813_wire (p : pixel) : list Z :=
  let '(r, g, b) := p in [P9813.pixelHeader r g b; b; g; r].

(** What the P9813 decoder returns for the bytes its encoder wrote. *)
Definition p9813_decoded (p : pixel) : tuple :=
  let '(r, g, b) := p in [P9813.pixelHeader r g b; g; b; r].

Definition u32 (c : Z) : Prop := 0 <= c < 2 ^ 32.

(** The unsigned big-endian integer in the [n] bytes at offset [off]. *)
Definition field (off n : nat) (data : bytes) : Z :=
  struct.be_uint (firstn n (skipn off data)).

(** The attributes after a complete [unpack]. *)
Definition parsed (drv : driver) (data : bytes) (o : ledSpeakPacket) :=
  mkPacket (field 10 1 data) (seq o) (Some (len data))
           (Some (field 0 4 data)) (Some (field 4 4 data))
           (Some (field 8 2 data)) (Some (field 11 1 data))
           (Some [field 12 4 data])
           (Some (unpackPixels drv (skipn 16 data)))
           (Some (calcCrc (skipn 8 data))).

(** The payload and the packet [packRawFrame] builds, in closed form. *)
Definition raw_payload (s f : Z) (pixelData : bytes) : bytes :=
  struct.be_bytes 2 s ++ struct.be_bytes 1 f
    ++ struct.be_bytes 1 MSG_TYPE.FB_RAW
    ++ struct.be_bytes 4 (len pixelData) ++ pixelData.

Definition raw_packet (s f : Z) (pixelData : bytes) : bytes :=
  struct.be_bytes 4 (len (raw_payload s f pixelData))
    ++ struct.be_bytes 4 (calcCrc (raw_payload s f pixelData))
    ++ raw_payload s f pixelData.

(** Fifteen bytes: a full envelope and message header, one byte short of
    the framebuffer length field. *)
Definition truncated_packet : bytes :=
  ascii_bytes [0;0;0;4; 1;2;3;4; 0;7;0;16; 0;0;0].

(** A 19-byte buffer whose declared length (4) and checksum (0x01020304)
    both disagree with its content. *)
Definition mismatched_packet : bytes :=
  ascii_bytes [0;0;0;4; 1;2;3;4; 0;7;1;16; 0;0;0;99; 10;20;30].

(** Four bytes to put in place of the framebuffer length field. *)
Definition fb_length_3 : bytes := ascii_bytes [0;0;0;3].

(** 1431655763 black pixels: packed by the WS2812 driver they give a payload
    of [3 * 1431655763 + 8 = 2^32 + 1] bytes. *)
Definition oversize_frame : list pixel := repeat (0, 0, 0) (Z.to_nat 1431655763).

(** The packet a sender whose counter is 65535 builds for [framePixels]. *)
Definition last_packet : bytes :=
  ascii_bytes [0;0;0;17; 169;14;171;37; 255;255; 0; 16; 0;0;0;9;
               0;255;0; 255;0;0; 0;0;255].

(** The sending loop of [main], without the socket: [count] builds in a
    row by one instance, returning the datagrams in order. *)
Fixpoint sendRawFrames (drv : driver) (pixels : list pixel) (count : nat)
  : M (list bytes) :=
  match count with
  | O => ret []
  | S n =>
      packetData <- packRawFrame drv pixels ;;
      sent <- sendRawFrames drv pixels n ;;
      ret (packetData :: sent)
  end.

Fixpoint count_from (s : Z) (n : nat) : list Z :=
  match n with
  | O => []
  | S m => s :: count_from (s + 1) m
  end.

(** Bit [k] of a byte inverted: [b ^ (1 << k)]. *)
Definition flip_byte (b : byte) (k : Z) : byte :=
  byte_of (Z.lxor (byte_val b) (Z.shiftl 1 k)).

(** Bit [k] of the byte at offset [i] inverted; a buffer without an offset
    [i] is left as it is. *)
Fixpoint flip_bit (data : bytes) (i : nat) (k : Z) : bytes :=
  match data, i with
  | [], _ => []
  | b :: t, O => flip_byte b k :: t
  | b :: t, S j => b :: flip_bit t j k
  end.

(** ** Definitions used in the further properties *)

(** The integer at offset [i] of a buffer ([0] beyond its end, where no
    statement below looks). *)
Definition byte_at (data : bytes) (i : nat) : Z := byte_val (nth i data x00).

(** The pixels a WS2812 frame decodes to, as [(r, g, b)] triples. *)
Definition ws2812_pixels_of (data : bytes) : list pixel :=
  map (fun '(g, r, b) => (byte_val r, byte_val g, byte_val b)) (zip3 data).

(** The packet a fresh P9813 sender builds for [framePixels]. *)
Definition p9813_first_packet : bytes :=
  ascii_bytes [0;0;0;20; 143;96;102;13; 0;0; 0; 16; 0;0;0;12;
               252;0;0;255; 243;0;255;0; 207;255;0;0].





(** A pixel list with one channel out of range. *)
Definition bad_pixels : list pixel := [(255, 0, 0); (0, 256, 0)].

(** ** Printing: [dump] and the rest of the program *)

Infix "+++" := String.append (at level 60, right associativity).

(** [str] of an integer, as [format] and [print] show it. *)
Definition str (z : Z) : String.string :=
  DecimalString.NilZero.string_of_int (Z.to_int z).

(** [repr] of a tuple of integers and of a list of such tuples. *)
Definition repr_tuple (t : tuple) : String.string :=
  match t with
  | [x] => "(" +++ str x +++ ",)"
  | _ => "(" +++ String.concat ", " (map str t) +++ ")"
  end%string.

Definition repr_list (l : list tuple) : String.string :=
  ("[" +++ String.concat ", " (map repr_tuple l) +++ "]")%string.

(** The exceptions of the whole program: those of the packet methods, a
    missing attribute, whatever a socket call raises, and [sys.exit]. *)
Inductive pyexn :=
| PacketError (e : exn)
| AttributeError (attribute : String.string)
| OSError
| SystemExit (status : Z).

Inductive outcome (A : Type) :=
| Done (a : A)
| Fail (e : pyexn).
Arguments Done {A} a.
Arguments Fail {A} e.

(** [ledSpeakPacket.dump]: the lines printed, and the exception that ended
    the call if one did. Each [format] reads its attributes from left to
    right; an attribute [unpack] has not assigned yet raises
    [AttributeError] before the line is printed. *)
Definition dump (o : ledSpeakPacket) : list String.string * option pyexn :=
  match rcvdLen o with
  | None => ([], Some (AttributeError "rcvdLen"%string))
  | Some rl =>
  match payloadLen o with
  | None => ([], Some (AttributeError "payloadLen"%string))
  | Some pl =>
  let line1 :=
    ("received " +++ str rl +++ " bytes; indicated len = " +++ str (pl + 8))%string in
  match payloadCrc o with
  | None => ([line1], Some (AttributeError "payloadCrc"%string))
  | Some pc =>
  match localCrc o with
  | None => ([line1], Some (AttributeError "localCrc"%string))
  | Some lc =>
  let line2 :=
    ("calculated CRC = " +++ str pc +++ "; indicated CRC = " +++ str lc)%string in
  match payloadSeq o with
  | None => ([line1; line2], Some (AttributeError "payloadSeq"%string))
  | Some ps =>
  match msgType o with
  | None => ([line1; line2], Some (AttributeError "msgType"%string))
  | Some mt =>
  let line3 :=
    ("seq number = " +++ str ps +++ " flags = " +++ str (flags o)
       +++ " type = " +++ str mt)%string in
  match fb o with
  | None => ([line1; line2; line3], Some (AttributeError "fb"%string))
  | Some f => ([line1; line2; line3; repr_list f], None)
  end end end end end end end.

(** [binascii.hexlify], and how [print] shows the bytes object it returns. *)
Definition hex_digit (n : Z) : String.string :=
  match n with
  | 0 => "0" | 1 => "1" | 2 => "2" | 3 => "3" | 4 => "4" | 5 => "5"
  | 6 => "6" | 7 => "7" | 8 => "8" | 9 => "9" | 10 => "a" | 11 => "b"
  | 12 => "c" | 13 => "d" | 14 => "e" | _ => "f"
  end%string.

Fixpoint hexlify (data : bytes) : String.string :=
  match data with
  | [] => ""%string
  | b :: t => hex_digit (byte_val b / 16) +++ hex_digit (byte_val b mod 16) +++ hexlify t
  end.

Definition repr_bytes_hex (data : bytes) : String.string :=
  ("b'" +++ hexlify data +++ "'")%string.

(** What the program asks of a UDP socket. The socket and the network behind
    it are not part of the program: every operation is a parameter, and may
    raise ([None]) instead of returning. *)
Record socket_ops := mkSocketOps {
  sock_t : Type;
  socket : option sock_t;
  sock_bind : String.string * Z -> sock_t -> option unit * sock_t;
  sock_sendto : bytes -> String.string * Z -> sock_t -> option Z * sock_t;
  sock_recvfrom : Z -> sock_t -> option (bytes * (String.string * Z)) * sock_t;
  sock_close : sock_t -> option unit * sock_t
}.

Module Node.

(** An instance of [ledSpeakNode]. [cls] and [packet] are the class and the
    attributes of [self.packet]; [packetData] does not exist before the
    first [recvPacket]; [stdout] holds the lines the process has printed. *)
Record t (S : socket_ops) := mk {
  sock : sock_t S;
  host : String.string;
  port : Z;
  verbose : bool;
  drv : String.string;
  UDP_BUF_SIZE : Z;
  cls : driver;
  packet : ledSpeakPacket;
  packetData : option bytes;
  stdout : list String.string
}.
Arguments mk {S}.
Arguments sock {S}.
Arguments host {S}.
Arguments port {S}.
Arguments verbose {S}.
Arguments drv {S}.
Arguments UDP_BUF_SIZE {S}.
Arguments cls {S}.
Arguments packet {S}.
Arguments packetData {S}.
Arguments stdout {S}.

Definition set_sock {S} (v : sock_t S) (n : t S) : t S :=
  mk v (host n) (port n) (verbose n) (drv n) (UDP_BUF_SIZE n) (cls n)
     (packet n) (packetData n) (stdout n).
Definition set_packet {S} (v : ledSpeakPacket) (n : t S) : t S :=
  mk (sock n) (host n) (port n) (verbose n) (drv n) (UDP_BUF_SIZE n) (cls n)
     v (packetData n) (stdout n).
Definition set_packetData {S} (v : bytes) (n : t S) : t S :=
  mk (sock n) (host n) (port n) (verbose n) (drv n) (UDP_BUF_SIZE n) (cls n)
     (packet n) (Some v) (stdout n).
Definition print {S} (line : String.string) (n : t S) : t S :=
  mk (sock n) (host n) (port n) (verbose n) (drv n) (UDP_BUF_SIZE n) (cls n)
     (packet n) (packetData n) (stdout n ++ [line]).

(** [__init__], in a process that has printed [out] so far. With a driver
    name other than the two it knows it prints a message and exits. *)
Definition init (S : socket_ops) (host : String.string) (port : Z)
           (drv : String.string) (verbose : bool) (out : list String.string)
  : outcome (t S) * list String.string :=
  match socket S with
  | None => (Fail OSError, out)
  | Some s =>
      if String.eqb drv "p9813"%string then
        (Done (mk s host port verbose drv 2048 ledSpeakPacketP9813
                  init None out), out)
      else if String.eqb drv "ws2812"%string then
        (Done (mk s host port verbose drv 2048 ledSpeakPacketWs2812
                  init None out), out)
      else
        (Fail (SystemExit 1), out ++ [("invalid driver type: " +++ drv)%string])
  end.

Definition listen {S} (n : t S) : outcome unit * t S :=
  match sock_bind S (""%string, port n) (sock n) with
  | (Some _, s) => (Done tt, set_sock s n)
  | (None, s) => (Fail OSError, set_sock s n)
  end.

Definition stop {S} (n : t S) : outcome unit * t S :=
  match sock_close S (sock n) with
  | (Some _, s) => (Done tt, set_sock s n)
  | (None, s) => (Fail OSError, set_sock s n)
  end.

Definition sendRawFrame {S} (pixels : list pixel) (n : t S)
  : outcome unit * t S :=
  match packRawFrame (cls n) pixels (packet n) with
  | (Raise e, p) => (Fail (PacketError e), set_packet p n)
  | (Ok packetData, p) =>
      let n := set_packet p n in
      match sock_sendto S packetData (host n, port n) (sock n) with
      | (None, s) => (Fail OSError, set_sock s n)
      | (Some sent, s) =>
          let n := set_sock s n in
          (Done tt, if verbose n then print (repr_bytes_hex packetData) n else n)
      end
  end.

Definition recvPacket {S} (n : t S)
  : outcome (String.string * Z) * t S :=
  match sock_recvfrom S (UDP_BUF_SIZE n) (sock n) with
  | (None, s) => (Fail OSError, set_sock s n)
  | (Some (data, (addr, port)), s) =>
      (Done (addr, port), set_packetData data (set_sock s n))
  end.

Definition decodePacket {S} (n : t S) : outcome unit * t S :=
  match packetData n with
  | None => (Fail (AttributeError "packetData"%string), n)
  | Some data =>
      match unpack (cls n) data (packet n) with
      | (Ok _, p) => (Done tt, set_packet p n)
      | (Raise e, p) => (Fail (PacketError e), set_packet p n)
      end
  end.

Definition dumpPacket {S} (n : t S) : outcome unit * t S :=
  let '(lines, e) := dump (packet n) in
  let n' := mk (sock n) (host n) (port n) (verbose n) (drv n) (UDP_BUF_SIZE n)
               (cls n) (packet n) (packetData n) (stdout n ++ lines) in
  match e with
  | None => (Done tt, n')
  | Some e => (Fail e, n')
  end.

End Node.

(** [for i in range(count)] around a body that does not use [i]. *)
Fixpoint for_range {St : Type} (count : nat)
         (body : St -> outcome unit * St) (s : St) : outcome unit * St :=
  match count with
  | O => (Done tt, s)
  | S m =>
      match body s with
      | (Done _, s') => for_range m body s'
      | (Fail e, s') => (Fail e, s')
      end
  end.

(** The parsed command line ([argparse] itself is not part of this
    development): [host] is absent unless [--host] was given. *)
Record args := mkArgs {
  arg_host : option String.string;
  arg_port : Z;
  arg_drv : String.string;
  arg_count : Z;
  arg_command : String.string;
  arg_verbose : bool
}.

(** One receive, decode and print of the [listen] command. *)
Definition listen_once {S} (n : Node.t S) : outcome unit * Node.t S :=
  match Node.recvPacket n with
  | (Fail e, n) => (Fail e, n)
  | (Done _, n) =>
      match Node.decodePacket n with
      | (Fail e, n) => (Fail e, n)
      | (Done _, n) => Node.dumpPacket n
      end
  end.

(** [main] after the arguments are parsed. The result is how the process
    ended, what it printed, and the node if one was constructed. *)
Definition main (S : socket_ops) (a : args)
  : outcome unit * list String.string * option (Node.t S) :=
  if String.eqb (arg_command a) "simple"%string then
    match arg_host a with
    | Some h =>
        if String.eqb h ""%string then
          (Fail (SystemExit 1), ["missing --host or -t"%string], None)
        else
          let out :=
            [("Transmitting packets to " +++ h +++ ":" +++ str (arg_port a))%string] in
          match Node.init S h (arg_port a) (arg_drv a) (arg_verbose a) out with
          | (Fail e, out) => (Fail e, out, None)
          | (Done node, _) =>
              let '(r, node) :=
                for_range (Z.to_nat (arg_count a))
                          (Node.sendRawFrame framePixels) node in
              (r, Node.stdout node, Some node)
          end
    | None => (Fail (SystemExit 1), ["missing --host or -t"%string], None)
    end
  else if String.eqb (arg_command a) "rainbow"%string then
    (Fail (SystemExit 1), ["not implemented"%string], None)
  else if String.eqb (arg_command a) "listen"%string then
    let out :=
      [("Listening for packets on port " +++ str (arg_port a))%string] in
    match Node.init S "dummy"%string (arg_port a) (arg_drv a) (arg_verbose a) out with
    | (Fail e, out) => (Fail e, out, None)
    | (Done node, _) =>
        match Node.listen node with
        | (Fail e, node) => (Fail e, Node.stdout node, Some node)
        | (Done _, node) =>
            match for_range (Z.to_nat (arg_count a)) listen_once node with
            | (Fail e, node) => (Fail e, Node.stdout node, Some node)
            | (Done _, node) =>
                let '(r, node) := Node.stop node in
                (r, Node.stdout node, Some node)
            end
        end
    end
  else (Done tt, [], None).

(** A socket that only records: the datagrams handed to [sendto], oldest
    first, and a queue [inbox] of datagrams that [recvfrom] returns in turn,
    each cut to the buffer size asked for. *)
Definition log_socket (inbox : list bytes) : socket_ops :=
  mkSocketOps
    (list bytes * list bytes)
    (Some ([], inbox))
    (fun _ s => (Some tt, s))
    (fun data _ s => (Some (len data), (fst s ++ [data], snd s)))
    (fun bufsize s =>
       match snd s with
       | [] => (None, s)
       | d :: q => (Some (firstn (Z.to_nat bufsize) d, ("peer"%string, 2112)),
                    (fst s, q))
       end)
    (fun s => (Some tt, s)).

(** The socket after [sendto] was called on each of [pkts] in turn. *)
Fixpoint send_all (S : socket_ops) (pkts : list bytes)
         (addr : String.string * Z) (s : sock_t S) : sock_t S :=
  match pkts with
  | [] => s
  | p :: t => send_all S t addr (snd (sock_sendto S p addr s))
  end.

(** The [n] packets with pixel bytes [pixelData], flags [f] and the
    sequence numbers [first], [first + 1], ... *)
Definition frames (pixelData : bytes) (first f : Z) (n : nat) : list bytes :=
  map (fun i => raw_packet i f pixelData) (count_from first n).

(** The bytes the named driver packs [framePixels] into. *)
Definition frame_bytes (drv : String.string) : bytes :=
  if String.eqb drv "p9813"%string
  then ascii_bytes [252;0;0;255; 243;0;255;0; 207;255;0;0]
  else ascii_bytes [0;255;0; 255;0;0; 0;0;255].

(** Command lines used as examples. *)
Definition simple_args : args :=
  mkArgs (Some "10.0.0.7"%string) 2112 "ws2812"%string 3 "simple"%string true.

Definition listen_args : args :=
  mkArgs None 2112 "p9813"%string 2 "listen"%string false.

Definition default_driver_args : args :=
  mkArgs None 2112 "none"%string 1 "listen"%string false.

(** A listening node whose socket holds one datagram to receive. *)
Definition listening_node (datagram : bytes)
  : Node.t (log_socket [datagram]) :=
  Node.mk (S := log_socket [datagram]) ([], [datagram]) "dummy"%string 2112
          false "ws2812"%string 2048 ledSpeakPacketWs2812 init None
          ["Listening for packets on port 2112"%string].

Definition overflow_args : args :=
  mkArgs (Some "10.0.0.7"%string) 2112 "p9813"%string 70000 "simple"%string false.

(** * Proofs *)

(** ** Test vectors of the library models *)

Example crc32_empty : binascii.crc32 [] = 0.
Proof. reflexivity. Qed.

Example crc32_check : binascii.crc32 (ascii_bytes [49;50;51;52;53;54;55;56;57]) = 0xCBF43926.
Proof. vm_compute. reflexivity. Qed.

Example ws2812_frame_bytes :
  Ws2812.packPixels framePixels
  = Ok (ascii_bytes [0;255;0; 255;0;0; 0;0;255]).
Proof. reflexivity. Qed.

(** ** Bytes and integers *)

Lemma byte_val_range (b : byte) : 0 <= byte_val b <= 255.
Proof.
  unfold byte_val. pose proof (Byte.to_N_bounded b). lia.
Qed.

Lemma byte_of_val (b : byte) : byte_of (byte_val b) = b.
Proof.
  unfold byte_of, byte_val. rewrite N2Z.id, Byte.of_to_N. reflexivity.
Qed.

Lemma byte_val_of (z : Z) : chan8 z -> byte_val (byte_of z) = z.
Proof.
  intros Hz. unfold byte_of, byte_val.
  destruct (Byte.of_N (Z.to_N z)) as [b|] eqn:E.
  - apply Byte.to_of_N in E. rewrite E. unfold chan8 in Hz. lia.
  - apply Byte.of_N_None_iff in E. unfold chan8 in Hz. lia.
Qed.

Lemma byte_val_inj (a b : byte) : byte_val a = byte_val b -> a = b.
Proof.
  intros H. rewrite <- (byte_of_val a), <- (byte_of_val b), H. reflexivity.
Qed.

Lemma len_app {A} (l1 l2 : list A) : len (l1 ++ l2) = len l1 + len l2.
Proof. unfold len. rewrite length_app. lia. Qed.

Lemma len_cons {A} (x : A) (l : list A) : len (x :: l) = 1 + len l.
Proof. unfold len. simpl length. lia. Qed.

Lemma len_nonneg {A} (l : list A) : 0 <= len l.
Proof. unfold len. lia. Qed.

(** ** Lemmas on [struct] *)

Lemma be_uint_snoc (l : bytes) (b : byte) :
  struct.be_uint (l ++ [b]) = struct.be_uint l * 256 + byte_val b.
Proof.
  unfold struct.be_uint. rewrite fold_left_app. reflexivity.
Qed.

Lemma be_bytes_length (n : nat) (x : Z) : length (struct.be_bytes n x) = n.
Proof.
  revert x. induction n as [|n IH]; intros x; simpl.
  - reflexivity.
  - rewrite length_app, IH. simpl. lia.
Qed.

Lemma be_uint_be_bytes (n : nat) (x : Z) :
  0 <= x < 256 ^ Z.of_nat n -> struct.be_uint (struct.be_bytes n x) = x.
Proof.
  revert x. induction n as [|n IH]; intros x Hx.
  - simpl in *. unfold struct.be_uint. simpl. lia.
  - cbn [struct.be_bytes]. rewrite be_uint_snoc.
    rewrite Nat2Z.inj_succ, Z.pow_succ_r in Hx by lia.
    rewrite IH.
    + rewrite byte_val_of.
      * pose proof (Z.div_mod x 256). lia.
      * pose proof (Z.mod_pos_bound x 256). unfold chan8. lia.
    + split.
      * apply Z.div_pos; lia.
      * apply Z.div_lt_upper_bound; lia.
Qed.

Lemma pack_field_ok (c : struct.code) (v : Z) :
  0 <= v < 256 ^ Z.of_nat (struct.size c) ->
  struct.pack_field c v = Ok (struct.be_bytes (struct.size c) v).
Proof.
  intros [H0 H1]. unfold struct.pack_field.
  apply Z.leb_le in H0. apply Z.ltb_lt in H1. rewrite H0, H1. reflexivity.
Qed.

Lemma pack_field_raise (c : struct.code) (v : Z) :
  256 ^ Z.of_nat (struct.size c) <= v ->
  struct.pack_field c v = Raise struct_error.
Proof.
  intros H. unfold struct.pack_field.
  apply Z.ltb_ge in H. rewrite H, andb_false_r. reflexivity.
Qed.

Lemma pack_field_B (v : Z) :
  chan8 v -> struct.pack_field struct.B v = Ok [byte_of v].
Proof.
  intros H. unfold chan8 in H. rewrite pack_field_ok.
  - cbn [struct.size struct.be_bytes app]. rewrite Z.mod_small by lia. reflexivity.
  - cbn [struct.size]. change (256 ^ Z.of_nat 1) with 256. lia.
Qed.

Lemma pack_field_length (c : struct.code) (v : Z) (bs : bytes) :
  struct.pack_field c v = Ok bs -> length bs = struct.size c.
Proof.
  unfold struct.pack_field.
  destruct ((0 <=? v) && (v <? 256 ^ Z.of_nat (struct.size c))); intros E.
  - inversion E. apply be_bytes_length.
  - discriminate.
Qed.

Lemma unpack_pack_field (c : struct.code) (v : Z) (bs : bytes) :
  struct.pack_field c v = Ok bs -> struct.be_uint bs = v.
Proof.
  unfold struct.pack_field.
  destruct ((0 <=? v) && (v <? 256 ^ Z.of_nat (struct.size c))) eqn:E; intros H.
  - inversion H. apply andb_true_iff in E. destruct E as [E0 E1].
    apply Z.leb_le in E0. apply Z.ltb_lt in E1.
    apply be_uint_be_bytes. lia.
  - discriminate.
Qed.

(** What [pack] wrote, [unpack_fields] reads back, whatever follows. *)
Lemma unpack_fields_pack (fmt : list struct.code) :
  forall (vs : list Z) (bs rest : bytes),
    struct.pack fmt vs = Ok bs ->
    struct.unpack_fields fmt (bs ++ rest) = vs /\ length bs = struct.calcsize fmt.
Proof.
  induction fmt as [|c fmt IH]; intros vs bs rest H.
  - destruct vs; simpl in H; [|discriminate]. inversion H. split; reflexivity.
  - destruct vs as [|v vs]; simpl in H; [discriminate|].
    destruct (struct.pack_field c v) as [h|] eqn:Eh; simpl in H; [|discriminate].
    destruct (struct.pack fmt vs) as [t|] eqn:Et; simpl in H; [|discriminate].
    inversion H; subst bs; clear H.
    pose proof (pack_field_length _ _ _ Eh) as Lh.
    pose proof (unpack_pack_field _ _ _ Eh) as Uh.
    destruct (IH vs t rest Et) as [IH1 IH2].
    cbn [struct.unpack_fields struct.calcsize fold_right].
    rewrite <- app_assoc.
    rewrite <- Lh at 1. rewrite firstn_app, Nat.sub_diag, firstn_all.
    cbn [firstn]. rewrite app_nil_r, Uh.
    rewrite <- Lh at 1. rewrite skipn_app, Nat.sub_diag, skipn_all.
    cbn [skipn app]. rewrite IH1. split; [reflexivity|].
    rewrite length_app, Lh. f_equal. exact IH2.
Qed.

(** ** The pixel codecs *)

Lemma pixelHeader_chan8 (r g b : Z) : chan8 (P9813.pixelHeader r g b).
Proof.
  unfold P9813.pixelHeader, chan8.
  set (x := Z.lxor (Z.lxor (Z.lxor 255 _) _) _).
  assert (Hx : x = Z.land x 255).
  { apply Z.bits_inj'. intros n Hn. unfold x.
    rewrite Z.land_spec, !Z.lxor_spec, !Z.land_spec.
    destruct (Z.ltb_spec n 8) as [Hlt|Hge].
    - assert (Z.testbit 255 n = true) as ->; [|now rewrite andb_true_r].
      assert (n = 0 \/ n = 1 \/ n = 2 \/ n = 3 \/ n = 4 \/ n = 5 \/ n = 6 \/ n = 7)
        as C by lia.
      destruct C as [->|[->|[->|[->|[->|[->|[->| ->]]]]]]]; reflexivity.
    - assert (forall m, 0 <= m < 256 -> Z.testbit m n = false) as Hhi.
      { intros m Hm. destruct (Z.eq_dec m 0) as [->|Hm0].
        - apply Z.bits_0.
        - apply Z.bits_above_log2; [lia|].
          assert (Z.log2 m < 8) by (apply Z.log2_lt_pow2; lia). lia. }
      rewrite (Hhi 255), (Hhi 48), (Hhi 12), (Hhi 3) by lia. reflexivity. }
  rewrite Hx. rewrite Z.land_ones with (n := 8) by lia.
  pose proof (Z.mod_pos_bound x (2 ^ 8)). change (Z.ones 8) with 255 in *.
  change (2 ^ 8) with 256 in *. lia.
Qed.

Lemma pack_BBB (a b c : Z) :
  chan8 a -> chan8 b -> chan8 c ->
  struct.pack [struct.B; struct.B; struct.B] [a; b; c]
  = Ok [byte_of a; byte_of b; byte_of c].
Proof.
  intros Ha Hb Hc. cbn [struct.pack].
  rewrite !pack_field_B by assumption. reflexivity.
Qed.

Lemma pack_BBBB (a b c d : Z) :
  chan8 a -> chan8 b -> chan8 c -> chan8 d ->
  struct.pack [struct.B; struct.B; struct.B; struct.B] [a; b; c; d]
  = Ok [byte_of a; byte_of b; byte_of c; byte_of d].
Proof.
  intros Ha Hb Hc Hd. cbn [struct.pack].
  rewrite !pack_field_B by assumption. reflexivity.
Qed.

Lemma ws2812_packPixels_ok (pixels : list pixel) :
  Forall pixel8 pixels ->
  Ws2812.packPixels pixels = Ok (map byte_of (flat_map ws2812_wire pixels)).
Proof.
  unfold Ws2812.packPixels.
  induction 1 as [|[[r g] b] pixels (Hr & Hg & Hb) _ IH].
  - reflexivity.
  - cbn [mapM]. rewrite pack_BBB by assumption. cbn [rbind].
    match type of IH with context [mapM ?f pixels] =>
      destruct (mapM f pixels) as [frames|]; [|discriminate] end.
    cbn [rbind] in *. inversion IH as [E]. cbn [concat]. rewrite E. reflexivity.
Qed.

Lemma p9813_packPixels_ok (pixels : list pixel) :
  Forall pixel8 pixels ->
  P9813.packPixels pixels = Ok (map byte_of (flat_map p9813_wire pixels)).
Proof.
  unfold P9813.packPixels.
  induction 1 as [|[[r g] b] pixels (Hr & Hg & Hb) _ IH].
  - reflexivity.
  - cbn [mapM]. rewrite pack_BBBB by (assumption || apply pixelHeader_chan8).
    cbn [rbind].
    match type of IH with context [mapM ?f pixels] =>
      destruct (mapM f pixels) as [frames|]; [|discriminate] end.
    cbn [rbind] in *. inversion IH as [E]. cbn [concat]. rewrite E. reflexivity.
Qed.

Lemma ws2812_wire_chan8 (pixels : list pixel) :
  Forall pixel8 pixels -> Forall chan8 (flat_map ws2812_wire pixels).
Proof.
  induction 1 as [|[[r g] b] pixels (Hr & Hg & Hb) _ IH]; cbn [flat_map].
  - constructor.
  - cbn [ws2812_wire app]. repeat (apply Forall_cons; [assumption|]). exact IH.
Qed.

Lemma p9813_wire_chan8 (pixels : list pixel) :
  Forall pixel8 pixels -> Forall chan8 (flat_map p9813_wire pixels).
Proof.
  induction 1 as [|[[r g] b] pixels (Hr & Hg & Hb) _ IH]; cbn [flat_map].
  - constructor.
  - cbn [p9813_wire app].
    apply Forall_cons; [apply pixelHeader_chan8|].
    repeat (apply Forall_cons; [assumption|]). exact IH.
Qed.

Lemma map_byte_val_of (l : list Z) :
  Forall chan8 l -> map byte_val (map byte_of l) = l.
Proof.
  induction 1 as [|x l Hx _ IH]; cbn [map].
  - reflexivity.
  - rewrite byte_val_of, IH by assumption. reflexivity.
Qed.

Lemma ws2812_wire_length (pixels : list pixel) :
  len (flat_map ws2812_wire pixels) = 3 * len pixels.
Proof.
  induction pixels as [|[[r g] b] pixels IH]; cbn [flat_map].
  - reflexivity.
  - rewrite len_app, len_cons, IH. cbn [ws2812_wire]. unfold len at 1.
    cbn [length]. lia.
Qed.

Lemma p9813_wire_length (pixels : list pixel) :
  len (flat_map p9813_wire pixels) = 4 * len pixels.
Proof.
  induction pixels as [|[[r g] b] pixels IH]; cbn [flat_map].
  - reflexivity.
  - rewrite len_app, len_cons, IH. cbn [p9813_wire]. unfold len at 1.
    cbn [length]. lia.
Qed.

Lemma len_map {A B} (f : A -> B) (l : list A) : len (map f l) = len l.
Proof. unfold len. rewrite length_map. reflexivity. Qed.

Lemma ws2812_decode_wire (pixels : list pixel) :
  map (fun '(g, r, b) => [r; g; b]) (zip3 (flat_map ws2812_wire pixels))
  = map tuple_of_pixel pixels.
Proof.
  induction pixels as [|[[r g] b] pixels IH]; cbn [flat_map].
  - reflexivity.
  - cbn [ws2812_wire app zip3 map tuple_of_pixel]. rewrite IH. reflexivity.
Qed.

Lemma p9813_decode_wire (pixels : list pixel) :
  map (fun '(h, g, r, b) => [h; r; g; b]) (zip4 (flat_map p9813_wire pixels))
  = map p9813_decoded pixels.
Proof.
  induction pixels as [|[[r g] b] pixels IH]; cbn [flat_map].
  - reflexivity.
  - cbn [p9813_wire app zip4 map p9813_decoded]. rewrite IH. reflexivity.
Qed.

Lemma p9813_decode_encoded (pixels : list pixel) :
  Forall pixel8 pixels ->
  exists packed,
    P9813.packPixels pixels = Ok packed /\
    P9813.unpackPixels packed = map p9813_decoded pixels.
Proof.
  intros H. eexists. split; [apply p9813_packPixels_ok; exact H|].
  unfold P9813.unpackPixels.
  rewrite map_byte_val_of by (apply p9813_wire_chan8; exact H).
  apply p9813_decode_wire.
Qed.

Lemma ws2812_decode_encoded (pixels : list pixel) :
  Forall pixel8 pixels ->
  Ws2812.unpackPixels (map byte_of (flat_map ws2812_wire pixels))
  = map tuple_of_pixel pixels.
Proof.
  intros H. unfold Ws2812.unpackPixels.
  rewrite map_byte_val_of by (apply ws2812_wire_chan8; exact H).
  apply ws2812_decode_wire.
Qed.

Ltac pixel8_concrete :=
  repeat (apply Forall_cons; [unfold pixel8, chan8; lia|]); apply Forall_nil.

(** ** The pixel codecs: claims *)

(** C8. For every list of pixels with 8-bit channels, the WS2812 [packPixels]
    returns exactly [3 * len(pixels)] bytes, each pixel [(r, g, b)] giving the
    bytes [g, r, b], in input order. At [[(1,2,3)]] this is the bytes
    [[2,1,3]] (see the witness). *)
Theorem ws2812_packPixels_layout (pixels : list pixel) :
  Forall pixel8 pixels ->
  exists packed,
    Ws2812.packPixels pixels = Ok packed /\
    len packed = 3 * len pixels /\
    map byte_val packed = flat_map (fun '(r, g, b) => [g; r; b]) pixels.
Proof.
  intros H. exists (map byte_of (flat_map ws2812_wire pixels)).
  split; [apply ws2812_packPixels_ok; exact H|]. split.
  - rewrite len_map. apply ws2812_wire_length.
  - apply map_byte_val_of, ws2812_wire_chan8, H.
Qed.

Lemma ws2812_packPixels_layout_witness :
  Forall pixel8 [(1, 2, 3)] /\
  exists packed,
    Ws2812.packPixels [(1, 2, 3)] = Ok packed /\
    len packed = 3 /\
    map byte_val packed = [2; 1; 3].
Proof.
  assert (H : Forall pixel8 [(1, 2, 3)]) by pixel8_concrete.
  split; [exact H|].
  exact (ws2812_packPixels_layout [(1, 2, 3)] H).
Defined.

(** C4. For every list of pixels with 8-bit channels, decoding what the
    WS2812 codec encoded gives the pixels back:
    [unpackPixels(packPixels(pixels)) == pixels]. *)
Theorem ws2812_roundtrip (pixels : list pixel) :
  Forall pixel8 pixels ->
  exists packed,
    Ws2812.packPixels pixels = Ok packed /\
    Ws2812.unpackPixels packed = map tuple_of_pixel pixels.
Proof.
  intros H. eexists. split; [apply ws2812_packPixels_ok; exact H|].
  apply ws2812_decode_encoded, H.
Qed.

Lemma ws2812_roundtrip_witness :
  Forall pixel8 framePixels /\
  exists packed,
    Ws2812.packPixels framePixels = Ok packed /\
    Ws2812.unpackPixels packed = [[255; 0; 0]; [0; 255; 0]; [0; 0; 255]].
Proof.
  assert (H : Forall pixel8 framePixels) by (unfold framePixels; pixel8_concrete).
  split; [exact H|].
  exact (ws2812_roundtrip framePixels H).
Defined.

(** C7. For every list of pixels with 8-bit channels, the P9813 [packPixels]
    returns exactly four bytes per pixel, [header, b, g, r], in input order,
    with [header = 0xFF ^ (0x30 & (b >> 2)) ^ (0x0C & (g >> 4)) ^ (0x03 & (r >> 6))].
    At [(0xFF, 0, 0)] the bytes are [[0xFC, 0, 0, 0xFF]] (see the witness). *)
Theorem p9813_packPixels_layout (pixels : list pixel) :
  Forall pixel8 pixels ->
  exists packed,
    P9813.packPixels pixels = Ok packed /\
    len packed = 4 * len pixels /\
    map byte_val packed
    = flat_map (fun '(r, g, b) =>
                  [Z.lxor (Z.lxor (Z.lxor 0xFF (Z.land 0x30 (Z.shiftr b 2)))
                                  (Z.land 0x0C (Z.shiftr g 4)))
                          (Z.land 0x03 (Z.shiftr r 6));
                   b; g; r]) pixels.
Proof.
  intros H. exists (map byte_of (flat_map p9813_wire pixels)).
  split; [apply p9813_packPixels_ok; exact H|]. split.
  - rewrite len_map. apply p9813_wire_length.
  - apply map_byte_val_of, p9813_wire_chan8, H.
Qed.

Lemma p9813_packPixels_layout_witness :
  Forall pixel8 [(0xFF, 0x00, 0x00)] /\
  exists packed,
    P9813.packPixels [(0xFF, 0x00, 0x00)] = Ok packed /\
    len packed = 4 /\
    map byte_val packed = [0xFC; 0x00; 0x00; 0xFF].
Proof.
  assert (H : Forall pixel8 [(0xFF, 0x00, 0x00)]) by pixel8_concrete.
  split; [exact H|].
  exact (p9813_packPixels_layout [(0xFF, 0x00, 0x00)] H).
Defined.

(** C1, as stated, fails: the P9813 decoder returns 4-tuples that start with
    the header byte, and it reads the three colour bytes in the order of the
    WS2812 wire, not in the order its own encoder wrote them. For the pixel
    [(1, 2, 3)] the round trip gives [(255, 2, 3, 1)]. *)
Lemma p9813_roundtrip_counterexample :
  Forall pixel8 [(1, 2, 3)] /\
  exists packed,
    P9813.packPixels [(1, 2, 3)] = Ok packed /\
    P9813.unpackPixels packed = [[255; 2; 3; 1]] /\
    P9813.unpackPixels packed <> map tuple_of_pixel [(1, 2, 3)].
Proof.
  split; [pixel8_concrete|].
  eexists. split; [reflexivity|]. split; [reflexivity|].
  vm_compute. discriminate.
Qed.

(** C1, amended. For every list of pixels with 8-bit channels, decoding what
    the P9813 codec encoded gives one 4-tuple per pixel, in input order; the
    first item is the pixel's header byte and the other three are the pixel's
    three channel values. The result equals the input list only when that
    list is empty. *)
Theorem p9813_roundtrip_amended (pixels : list pixel) :
  Forall pixel8 pixels ->
  exists packed,
    P9813.packPixels pixels = Ok packed /\
    length (P9813.unpackPixels packed) = length pixels /\
    (forall i r g b,
       nth_error pixels i = Some (r, g, b) ->
       exists x y z,
         nth_error (P9813.unpackPixels packed) i
         = Some [P9813.pixelHeader r g b; x; y; z] /\
         Permutation [x; y; z] [r; g; b]) /\
    (P9813.unpackPixels packed = map tuple_of_pixel pixels <-> pixels = []).
Proof.
  intros H. destruct (p9813_decode_encoded pixels H) as (packed & Hp & Hu).
  exists packed. split; [exact Hp|]. rewrite Hu. split; [|split].
  - apply length_map.
  - intros i r g b Hi. exists g, b, r. split.
    + rewrite nth_error_map, Hi. reflexivity.
    + apply Permutation_sym. apply (Permutation_cons_append [g; b] r).
  - split.
    + destruct pixels as [|[[r g] b] t]; [reflexivity|].
      cbn [map p9813_decoded tuple_of_pixel]. intros E.
      apply (f_equal (fun l => length (hd [] l))) in E. discriminate E.
    + intros ->. reflexivity.
Qed.

Lemma p9813_roundtrip_amended_witness :
  Forall pixel8 framePixels /\
  exists packed,
    P9813.packPixels framePixels = Ok packed /\
    length (P9813.unpackPixels packed) = length framePixels /\
    (forall i r g b,
       nth_error framePixels i = Some (r, g, b) ->
       exists x y z,
         nth_error (P9813.unpackPixels packed) i
         = Some [P9813.pixelHeader r g b; x; y; z] /\
         Permutation [x; y; z] [r; g; b]) /\
    (P9813.unpackPixels packed = map tuple_of_pixel framePixels
     <-> framePixels = []).
Proof.
  assert (H : Forall pixel8 framePixels) by (unfold framePixels; pixel8_concrete).
  split; [exact H|].
  exact (p9813_roundtrip_amended framePixels H).
Defined.

(** ** The checksum: range and injectivity of the register update *)


Lemma lxor_bound (n a b : Z) :
  0 <= n -> 0 <= a < 2 ^ n -> 0 <= b < 2 ^ n -> 0 <= Z.lxor a b < 2 ^ n.
Proof.
  intros Hn Ha Hb.
  assert (H0 : 0 <= Z.lxor a b) by (apply Z.lxor_nonneg; lia).
  split; [exact H0|].
  destruct (Z.eq_dec (Z.lxor a b) 0) as [E|E].
  - rewrite E. apply Z.pow_pos_nonneg; lia.
  - apply Z.log2_lt_pow2; [lia|].
    assert (L : Z.log2 (Z.lxor a b) <= Z.max (Z.log2 a) (Z.log2 b))
      by (apply Z.log2_lxor; lia).
    assert (n = 0 \/ 0 < n) as [->|Hpos] by lia.
    + change (2 ^ 0) with 1 in *. assert (a = 0) by lia. assert (b = 0) by lia.
      subst. now elim E.
    + assert (La : Z.log2 a < n).
      { destruct (Z.eq_dec a 0) as [->|]; [exact Hpos|].
        apply Z.log2_lt_pow2; lia. }
      assert (Lb : Z.log2 b < n).
      { destruct (Z.eq_dec b 0) as [->|]; [exact Hpos|].
        apply Z.log2_lt_pow2; lia. }
      lia.
Qed.

Lemma lxor_cancel_r (a b p : Z) : Z.lxor a p = Z.lxor b p -> a = b.
Proof.
  intros H. apply (f_equal (fun x => Z.lxor x p)) in H.
  rewrite !Z.lxor_assoc, Z.lxor_nilpotent, !Z.lxor_0_r in H. exact H.
Qed.

Lemma lxor_cancel_l (a b p : Z) : Z.lxor p a = Z.lxor p b -> a = b.
Proof.
  rewrite (Z.lxor_comm p a), (Z.lxor_comm p b). apply lxor_cancel_r.
Qed.

Lemma byte_val_u32 (b : byte) : u32 (byte_val b).
Proof. pose proof (byte_val_range b). unfold u32. lia. Qed.

Lemma lxor_u32 (a b : Z) : u32 a -> u32 b -> u32 (Z.lxor a b).
Proof. unfold u32. apply lxor_bound. lia. Qed.

Lemma shiftr1_u32 (c : Z) : u32 c -> 0 <= Z.shiftr c 1 < 2 ^ 31.
Proof.
  unfold u32. intros H. rewrite Z.shiftr_div_pow2 by lia.
  change (2 ^ 1) with 2. split.
  - apply Z.div_pos; lia.
  - apply Z.div_lt_upper_bound; lia.
Qed.

Lemma crc_step_u32 (c : Z) : u32 c -> u32 (binascii.crc_step c).
Proof.
  intros H. pose proof (shiftr1_u32 c H) as S. unfold binascii.crc_step.
  destruct (Z.odd c).
  - apply lxor_u32; unfold u32, binascii.POLY; lia.
  - unfold u32. lia.
Qed.



Lemma iter_crc_step_u32 (n : nat) (c : Z) :
  u32 c -> u32 (Nat.iter n binascii.crc_step c).
Proof.
  intros H. induction n as [|n IH]; [exact H|]. cbn [Nat.iter].
  apply crc_step_u32, IH.
Qed.


Lemma crc_byte_u32 (c : Z) (b : byte) : u32 c -> u32 (binascii.crc_byte c b).
Proof.
  intros H. apply iter_crc_step_u32, lxor_u32; [exact H|apply byte_val_u32].
Qed.


Lemma crc_update_u32 (data : bytes) (c : Z) :
  u32 c -> u32 (binascii.crc_update c data).
Proof.
  revert c. induction data as [|b data IH]; intros c H; [exact H|].
  apply IH, crc_byte_u32, H.
Qed.


Lemma crc32_u32 (data : bytes) : u32 (binascii.crc32 data).
Proof.
  apply lxor_u32; [apply crc_update_u32|]; unfold u32; lia.
Qed.


(** ** Parsing: [unpack] *)

Lemma unpack_from_ok fmt data off :
  (off + struct.calcsize fmt <= length data)%nat ->
  struct.unpack_from fmt data off
  = Ok (struct.unpack_fields fmt (skipn off data)).
Proof.
  intros H. unfold struct.unpack_from.
  apply Nat.leb_le in H. rewrite H. reflexivity.
Qed.

Lemma unpack_from_short fmt data off :
  (length data < off + struct.calcsize fmt)%nat ->
  struct.unpack_from fmt data off = Raise struct_error.
Proof.
  intros H. unfold struct.unpack_from.
  apply Nat.leb_gt in H. rewrite H. reflexivity.
Qed.

Ltac calcsize := cbn [struct.calcsize fold_right struct.size]; lia.

Lemma unpack_ok drv data o :
  (16 <= length data)%nat -> unpack drv data o = (Ok tt, parsed drv data o).
Proof.
  intros H. unfold unpack, bind, assign, lift.
  rewrite !unpack_from_ok by calcsize.
  cbn [struct.unpack_fields struct.size].
  rewrite !skipn_skipn. reflexivity.
Qed.

Lemma skipn_app_exact {A} (n : nat) (pre rest : list A) :
  length pre = n -> skipn n (pre ++ rest) = rest.
Proof.
  intros <-. rewrite skipn_app, skipn_all, Nat.sub_diag. reflexivity.
Qed.

Lemma firstn_app_exact {A} (n : nat) (pre rest : list A) :
  length pre = n -> firstn n (pre ++ rest) = pre.
Proof.
  intros <-. rewrite firstn_app, firstn_all, Nat.sub_diag. cbn [firstn].
  apply app_nil_r.
Qed.

Lemma skipn_app_plus {A} (n m : nat) (pre rest : list A) :
  length pre = n -> skipn (n + m) (pre ++ rest) = skipn m rest.
Proof.
  intros H. rewrite Nat.add_comm, <- skipn_skipn, skipn_app_exact by exact H.
  reflexivity.
Qed.

(** C5. For every buffer shorter than 16 bytes, [unpack] raises
    [struct.error]: one of the three bounds-checked header reads fails, the
    pixel decoder and the checksum are never reached, and the attributes
    [fb], [localCrc] and [payloadFbLen] are left as they were. *)
Theorem unpack_short_buffer_raises drv data o :
  (length data < 16)%nat ->
  exists o',
    unpack drv data o = (Raise struct_error, o') /\
    fb o' = fb o /\ localCrc o' = localCrc o /\
    payloadFbLen o' = payloadFbLen o.
Proof.
  intros H. unfold unpack, bind, assign, lift.
  destruct (Nat.lt_ge_cases (length data) 8) as [H8|H8].
  { rewrite (unpack_from_short _ data 0) by calcsize.
    eexists. split; [reflexivity|]. repeat split. }
  rewrite (unpack_from_ok _ data 0) by calcsize.
  cbn [struct.unpack_fields struct.size].
  destruct (Nat.lt_ge_cases (length data) 12) as [H12|H12].
  { rewrite (unpack_from_short _ data 8) by calcsize.
    eexists. split; [reflexivity|]. repeat split. }
  rewrite (unpack_from_ok _ data 8) by calcsize.
  cbn [struct.unpack_fields struct.size].
  rewrite (unpack_from_short _ data 12) by calcsize.
  eexists. split; [reflexivity|]. repeat split.
Qed.

Lemma unpack_short_buffer_raises_witness :
  (length truncated_packet < 16)%nat /\
  exists o',
    unpack ledSpeakPacketWs2812 truncated_packet init
    = (Raise struct_error, o') /\
    fb o' = fb init /\ localCrc o' = localCrc init /\
    payloadFbLen o' = payloadFbLen init.
Proof.
  assert (H : (length truncated_packet < 16)%nat) by (cbn; lia).
  split; [exact H|].
  exact (unpack_short_buffer_raises ledSpeakPacketWs2812 truncated_packet init H).
Defined.

(** C6. For every buffer of at least 16 bytes, [unpack] returns normally,
    whatever the declared length and checksum are, and leaves in the
    attributes: the received length, the declared length (bytes 0-3), the
    declared checksum (bytes 4-7), the CRC-32 of [packetData[8:]], the
    sequence number (bytes 8-9), the flags (byte 10), the message type
    (byte 11) and the pixels decoded from [packetData[16:]]. *)
Theorem unpack_total drv data o :
  (16 <= length data)%nat ->
  exists o',
    unpack drv data o = (Ok tt, o') /\
    rcvdLen o' = Some (len data) /\
    payloadLen o' = Some (field 0 4 data) /\
    payloadCrc o' = Some (field 4 4 data) /\
    localCrc o' = Some (binascii.crc32 (skipn 8 data)) /\
    payloadSeq o' = Some (field 8 2 data) /\
    flags o' = field 10 1 data /\
    msgType o' = Some (field 11 1 data) /\
    fb o' = Some (unpackPixels drv (skipn 16 data)).
Proof.
  intros H. exists (parsed drv data o).
  split; [apply unpack_ok, H|]. repeat split.
Qed.

Lemma unpack_total_witness :
  (16 <= length mismatched_packet)%nat /\
  exists o',
    unpack ledSpeakPacketWs2812 mismatched_packet init = (Ok tt, o') /\
    rcvdLen o' = Some 19 /\
    payloadLen o' = Some 4 /\
    payloadCrc o' = Some 0x01020304 /\
    localCrc o' = Some (binascii.crc32 (skipn 8 mismatched_packet)) /\
    payloadSeq o' = Some 7 /\
    flags o' = 1 /\
    msgType o' = Some 16 /\
    fb o' = Some [[20; 10; 30]].
Proof.
  assert (H : (16 <= length mismatched_packet)%nat) by (cbn; lia).
  split; [exact H|].
  exact (unpack_total ledSpeakPacketWs2812 mismatched_packet init H).
Defined.

(** C10. For every buffer of at least 16 bytes, the four bytes at offset 12
    do not affect decoding: with any other four bytes [w] in their place the
    decoded pixel list is the same, [unpackPixels(packetData[16:])]; and
    [payloadFbLen] holds the one-item tuple that [struct.unpack_from]
    returned, not its item. *)
Theorem unpack_ignores_fb_length drv data w o :
  (16 <= length data)%nat -> length w = 4%nat ->
  exists o1 o2,
    unpack drv data o = (Ok tt, o1) /\
    unpack drv (firstn 12 data ++ w ++ skipn 16 data) o = (Ok tt, o2) /\
    fb o1 = Some (unpackPixels drv (skipn 16 data)) /\
    fb o2 = fb o1 /\
    payloadFbLen o1 = Some [field 12 4 data] /\
    payloadFbLen o2 = Some [struct.be_uint w].
Proof.
  intros H Hw.
  assert (L12 : length (firstn 12 data) = 12%nat) by (apply firstn_length_le; lia).
  assert (L : (16 <= length (firstn 12 data ++ w ++ skipn 16 data))%nat).
  { rewrite !length_app, L12, Hw. lia. }
  exists (parsed drv data o), (parsed drv (firstn 12 data ++ w ++ skipn 16 data) o).
  split; [apply unpack_ok, H|]. split; [apply unpack_ok, L|].
  assert (S16 : skipn 16 (firstn 12 data ++ w ++ skipn 16 data) = skipn 16 data).
  { change 16%nat with (12 + 4)%nat at 1.
    rewrite skipn_app_plus by exact L12. apply skipn_app_exact, Hw. }
  assert (F12 : field 12 4 (firstn 12 data ++ w ++ skipn 16 data) = struct.be_uint w).
  { unfold field. rewrite skipn_app_exact by exact L12.
    rewrite firstn_app_exact by exact Hw. reflexivity. }
  unfold parsed; cbn [fb payloadFbLen]. rewrite S16, F12. repeat split.
Qed.

Lemma unpack_ignores_fb_length_witness :
  (16 <= length mismatched_packet)%nat /\ length fb_length_3 = 4%nat /\
  exists o1 o2,
    unpack ledSpeakPacketWs2812 mismatched_packet init = (Ok tt, o1) /\
    unpack ledSpeakPacketWs2812
           (firstn 12 mismatched_packet ++ fb_length_3
              ++ skipn 16 mismatched_packet) init = (Ok tt, o2) /\
    fb o1 = Some [[20; 10; 30]] /\
    fb o2 = fb o1 /\
    payloadFbLen o1 = Some [99] /\
    payloadFbLen o2 = Some [3].
Proof.
  assert (H : (16 <= length mismatched_packet)%nat) by (cbn; lia).
  split; [exact H|]. split; [reflexivity|].
  exact (unpack_ignores_fb_length ledSpeakPacketWs2812 mismatched_packet
           fb_length_3 init H eq_refl).
Defined.

(** ** Building: [packRawFrame] *)

Lemma pack_field_inv (c : struct.code) (v : Z) (bs : bytes) :
  struct.pack_field c v = Ok bs ->
  0 <= v < 256 ^ Z.of_nat (struct.size c) /\ bs = struct.be_bytes (struct.size c) v.
Proof.
  unfold struct.pack_field.
  destruct ((0 <=? v) && (v <? 256 ^ Z.of_nat (struct.size c))) eqn:E; intros H.
  - apply andb_true_iff in E. destruct E as [E0 E1].
    apply Z.leb_le in E0. apply Z.ltb_lt in E1. inversion H. split; [lia|reflexivity].
  - discriminate.
Qed.

Lemma pack_I (v : Z) : struct.pack [struct.I] [v] = struct.pack_field struct.I v.
Proof.
  cbn [struct.pack]. destruct (struct.pack_field struct.I v); cbn [rbind].
  - rewrite app_nil_r. reflexivity.
  - reflexivity.
Qed.

Lemma pack_HBB (a b c : Z) :
  struct.pack [struct.H; struct.B; struct.B] [a; b; c]
  = rbind (struct.pack_field struct.H a) (fun x =>
    rbind (struct.pack_field struct.B b) (fun y =>
    rbind (struct.pack_field struct.B c) (fun z => Ok (x ++ y ++ z)))).
Proof.
  cbn [struct.pack].
  destruct (struct.pack_field struct.H a); cbn [rbind]; [|reflexivity].
  destruct (struct.pack_field struct.B b); cbn [rbind]; [|reflexivity].
  destruct (struct.pack_field struct.B c); cbn [rbind]; [|reflexivity].
  rewrite app_nil_r. reflexivity.
Qed.

Lemma pack_II (a b : Z) :
  struct.pack [struct.I; struct.I] [a; b]
  = rbind (struct.pack_field struct.I a) (fun x =>
    rbind (struct.pack_field struct.I b) (fun y => Ok (x ++ y))).
Proof.
  cbn [struct.pack].
  destruct (struct.pack_field struct.I a); cbn [rbind]; [|reflexivity].
  destruct (struct.pack_field struct.I b); cbn [rbind]; [|reflexivity].
  rewrite app_nil_r. reflexivity.
Qed.

Lemma len_be_bytes (n : nat) (x : Z) : len (struct.be_bytes n x) = Z.of_nat n.
Proof. unfold len. rewrite be_bytes_length. reflexivity. Qed.

Lemma raw_payload_len (s f : Z) (pixelData : bytes) :
  len (raw_payload s f pixelData) = 8 + len pixelData.
Proof.
  unfold raw_payload, len. rewrite !length_app, !be_bytes_length. lia.
Qed.

Lemma raw_packet_len (s f : Z) (pixelData : bytes) :
  len (raw_packet s f pixelData) = 16 + len pixelData.
Proof.
  unfold raw_packet. rewrite !len_app, raw_payload_len.
  unfold len. rewrite !be_bytes_length. lia.
Qed.

Ltac run_method :=
  unfold packRawFrame, bind, lift, get, assign, ret; cbv beta iota zeta.

(** The build succeeds when every packed field is in the range of its
    format. *)
Lemma packRawFrame_ok drv pixels pixelData o :
  packPixels drv pixels = Ok pixelData ->
  0 <= seq o < 65536 -> chan8 (flags o) -> len pixelData + 8 < 2 ^ 32 ->
  packRawFrame drv pixels o
  = (Ok (raw_packet (seq o) (flags o) pixelData), set_seq (seq o + 1) o).
Proof.
  intros Hp Hs Hf Hl. unfold chan8 in Hf. pose proof (len_nonneg pixelData) as Hn.
  run_method. rewrite Hp. cbv beta iota.
  rewrite pack_I, pack_field_ok by (cbn [struct.size]; lia). cbv beta iota.
  rewrite pack_HBB.
  rewrite (pack_field_ok struct.H), !(pack_field_ok struct.B)
    by (cbn [struct.size]; unfold MSG_TYPE.FB_RAW; lia).
  cbn [rbind struct.size].
  assert (E : (struct.be_bytes 2 (seq o) ++ struct.be_bytes 1 (flags o)
                 ++ struct.be_bytes 1 MSG_TYPE.FB_RAW)
                ++ struct.be_bytes 4 (len pixelData) ++ pixelData
              = raw_payload (seq o) (flags o) pixelData).
  { unfold raw_payload. rewrite <- !app_assoc. reflexivity. }
  rewrite E. rewrite pack_II.
  pose proof (crc32_u32 (raw_payload (seq o) (flags o) pixelData)) as Hc.
  pose proof (raw_payload_len (seq o) (flags o) pixelData) as Hlen.
  unfold u32 in Hc.
  rewrite !(pack_field_ok struct.I) by (cbn [struct.size]; unfold calcCrc; lia).
  cbn [rbind struct.size]. unfold raw_packet. rewrite <- !app_assoc. reflexivity.
Qed.

(** Conversely, a build that returned met those conditions. *)
Lemma packRawFrame_inv drv pixels o pkt o1 :
  packRawFrame drv pixels o = (Ok pkt, o1) ->
  exists pixelData,
    packPixels drv pixels = Ok pixelData /\
    pkt = raw_packet (seq o) (flags o) pixelData /\
    o1 = set_seq (seq o + 1) o /\
    0 <= seq o < 65536 /\ chan8 (flags o) /\ len pixelData + 8 < 2 ^ 32.
Proof.
  intros H.
  assert (R : exists pixelData,
             packPixels drv pixels = Ok pixelData /\
             0 <= seq o < 65536 /\ chan8 (flags o) /\ len pixelData + 8 < 2 ^ 32).
  { revert H. run_method.
    destruct (packPixels drv pixels) as [pixelData|]; [|discriminate].
    rewrite pack_I.
    destruct (struct.pack_field struct.I (len pixelData)) as [lenField|] eqn:E1;
      [|discriminate].
    rewrite pack_HBB.
    destruct (struct.pack_field struct.H (seq o)) as [x|] eqn:E2;
      cbn [rbind]; [|discriminate].
    destruct (struct.pack_field struct.B (flags o)) as [y|] eqn:E3;
      cbn [rbind]; [|discriminate].
    destruct (struct.pack_field struct.B MSG_TYPE.FB_RAW) as [z|] eqn:E4;
      cbn [rbind]; [|discriminate].
    rewrite pack_II.
    match goal with
    | |- context [struct.pack_field struct.I (len ?p)] =>
        destruct (struct.pack_field struct.I (len p)) as [u|] eqn:E5;
        cbn [rbind]; [|discriminate]
    end.
    intros _. exists pixelData.
    apply pack_field_inv in E1, E2, E3, E4, E5.
    destruct E1 as [_ ->], E2 as [R2 ->], E3 as [R3 ->], E4 as [_ ->], E5 as [R5 _].
    rewrite !len_app, !len_be_bytes in R5. cbn [struct.size] in *.
    change (256 ^ Z.of_nat 4) with (2 ^ 32) in R5.
    change (256 ^ Z.of_nat 2) with 65536 in R2.
    change (256 ^ Z.of_nat 1) with 256 in R3.
    unfold chan8. repeat split; lia. }
  destruct R as (pixelData & Hp & Hs & Hf & Hl). exists pixelData.
  rewrite (packRawFrame_ok _ _ _ _ Hp Hs Hf Hl) in H. inversion H; subst.
  split; [exact Hp|]. split; [reflexivity|]. split; [reflexivity|].
  split; [exact Hs|]. split; [exact Hf|exact Hl].
Qed.

Lemma pack_field_cases (c : struct.code) (v : Z) :
  struct.pack_field c v = Ok (struct.be_bytes (struct.size c) v) \/
  struct.pack_field c v = Raise struct_error.
Proof.
  unfold struct.pack_field.
  destruct ((0 <=? v) && (v <? 256 ^ Z.of_nat (struct.size c))); auto.
Qed.

(** A build that raises after the pixels were packed raises [struct.error]
    and has not touched the instance. *)
Lemma packRawFrame_raise drv pixels pixelData o e o' :
  packPixels drv pixels = Ok pixelData ->
  packRawFrame drv pixels o = (Raise e, o') ->
  e = struct_error /\ o' = o.
Proof.
  intros Hp. run_method. rewrite Hp. cbv beta iota. rewrite pack_I.
  destruct (pack_field_cases struct.I (len pixelData)) as [-> | ->];
    cbv beta iota; [|intros H; inversion H; auto].
  rewrite pack_HBB.
  destruct (pack_field_cases struct.H (seq o)) as [-> | ->];
    cbn [rbind]; [|intros H; inversion H; auto].
  destruct (pack_field_cases struct.B (flags o)) as [-> | ->];
    cbn [rbind]; [|intros H; inversion H; auto].
  destruct (pack_field_cases struct.B MSG_TYPE.FB_RAW) as [-> | ->];
    cbn [rbind]; [|intros H; inversion H; auto].
  rewrite pack_II.
  match goal with
  | |- context [struct.pack_field struct.I (len ?p)] =>
      destruct (pack_field_cases struct.I (len p)) as [-> | ->];
      cbn [rbind]; [|intros H; inversion H; auto]
  end.
  match goal with
  | |- context [struct.pack_field struct.I (calcCrc ?p)] =>
      destruct (pack_field_cases struct.I (calcCrc p)) as [-> | ->];
      cbn [rbind]; [|intros H; inversion H; auto]
  end.
  discriminate.
Qed.

(** The build raises when the counter no longer fits sixteen bits, or when
    the payload length no longer fits thirty-two. *)
Lemma packRawFrame_out_of_range drv pixels pixelData o :
  packPixels drv pixels = Ok pixelData ->
  65536 <= seq o \/ 2 ^ 32 <= len pixelData + 8 ->
  packRawFrame drv pixels o = (Raise struct_error, o).
Proof.
  intros Hp Hr.
  destruct (packRawFrame drv pixels o) as [[pkt|e] o'] eqn:E.
  - apply packRawFrame_inv in E.
    destruct E as (pd & Hp' & _ & _ & Hs & _ & Hl).
    rewrite Hp in Hp'. inversion Hp'; subst pd. lia.
  - destruct (packRawFrame_raise _ _ _ _ _ _ Hp E) as [-> ->]. reflexivity.
Qed.

(** ** Reading back what was built *)

Lemma field_skip (off n k : nat) (x : Z) (rest : bytes) :
  (k <= off)%nat ->
  field off n (struct.be_bytes k x ++ rest) = field (off - k) n rest.
Proof.
  intros H. unfold field. f_equal. f_equal.
  replace off with (k + (off - k))%nat at 1 by lia.
  apply skipn_app_plus, be_bytes_length.
Qed.

Lemma skipn_be_bytes (off k : nat) (x : Z) (rest : bytes) :
  (k <= off)%nat ->
  skipn off (struct.be_bytes k x ++ rest) = skipn (off - k) rest.
Proof.
  intros H. replace off with (k + (off - k))%nat at 1 by lia.
  apply skipn_app_plus, be_bytes_length.
Qed.

Lemma field_here (n : nat) (x : Z) (rest : bytes) :
  0 <= x < 256 ^ Z.of_nat n -> field 0 n (struct.be_bytes n x ++ rest) = x.
Proof.
  intros H. unfold field. cbn [skipn].
  rewrite firstn_app_exact by apply be_bytes_length.
  apply be_uint_be_bytes, H.
Qed.

Ltac read_field :=
  unfold raw_packet, raw_payload;
  rewrite !field_skip by (cbn [Nat.sub]; lia);
  cbn [Nat.sub];
  apply field_here.

Lemma raw_packet_fields (s f : Z) (pixelData : bytes) :
  0 <= s < 65536 -> chan8 f -> len pixelData + 8 < 2 ^ 32 ->
  field 0 4 (raw_packet s f pixelData) = len (raw_packet s f pixelData) - 8 /\
  field 4 4 (raw_packet s f pixelData) = calcCrc (raw_payload s f pixelData) /\
  field 8 2 (raw_packet s f pixelData) = s /\
  field 10 1 (raw_packet s f pixelData) = f /\
  field 11 1 (raw_packet s f pixelData) = MSG_TYPE.FB_RAW /\
  field 12 4 (raw_packet s f pixelData) = len pixelData /\
  skipn 8 (raw_packet s f pixelData) = raw_payload s f pixelData /\
  skipn 16 (raw_packet s f pixelData) = pixelData.
Proof.
  intros Hs Hf Hl. unfold chan8 in Hf.
  pose proof (len_nonneg pixelData) as Hn.
  pose proof (crc32_u32 (raw_payload s f pixelData)) as Hc. unfold u32 in Hc.
  pose proof (raw_payload_len s f pixelData) as Hpl.
  repeat apply conj.
  - rewrite raw_packet_len. replace (16 + len pixelData - 8)
      with (len (raw_payload s f pixelData)) by lia.
    unfold raw_packet. apply field_here.
    change (256 ^ Z.of_nat 4) with (2 ^ 32). lia.
  - unfold raw_packet. rewrite field_skip by lia. cbn [Nat.sub].
    apply field_here. change (256 ^ Z.of_nat 4) with (2 ^ 32).
    unfold calcCrc. lia.
  - read_field. change (256 ^ Z.of_nat 2) with 65536. lia.
  - read_field. change (256 ^ Z.of_nat 1) with 256. lia.
  - read_field. change (256 ^ Z.of_nat 1) with 256. unfold MSG_TYPE.FB_RAW. lia.
  - read_field. change (256 ^ Z.of_nat 4) with (2 ^ 32). lia.
  - unfold raw_packet. rewrite !skipn_be_bytes by (cbn [Nat.sub]; lia).
    reflexivity.
  - unfold raw_packet, raw_payload.
    rewrite !skipn_be_bytes by (cbn [Nat.sub]; lia). reflexivity.
Qed.

Lemma raw_packet_length (s f : Z) (pixelData : bytes) :
  length (raw_packet s f pixelData) = (16 + length pixelData)%nat.
Proof.
  pose proof (raw_packet_len s f pixelData) as H. unfold len in H. lia.
Qed.

(** ** Packets: building, then parsing *)

Lemma black_frame_pixel8 (n : nat) : Forall pixel8 (repeat (0, 0, 0) n).
Proof.
  apply Forall_forall. intros p Hp. apply repeat_spec in Hp. subst p.
  unfold pixel8, chan8. lia.
Qed.

Lemma packRawFrame_black_frame_raises (n : nat) (o : ledSpeakPacket) :
  2 ^ 32 <= 3 * Z.of_nat n + 8 ->
  packRawFrame ledSpeakPacketWs2812 (repeat (0, 0, 0) n) o
  = (Raise struct_error, o).
Proof.
  intros Hn.
  apply (packRawFrame_out_of_range ledSpeakPacketWs2812 _
           (map byte_of (flat_map ws2812_wire (repeat (0, 0, 0) n)))).
  - apply (ws2812_packPixels_ok _ (black_frame_pixel8 n)).
  - right. rewrite len_map, ws2812_wire_length.
    unfold len. rewrite repeat_length. lia.
Qed.

(** C3, as stated, fails for pixel lists so long that the payload length no
    longer fits the 32-bit length field: for 1431655763 pixels with 8-bit
    channels and a fresh sender (counter 0, flags 0) the build raises
    [struct.error] instead of returning a packet, and the counter does not
    advance. *)
Lemma packRawFrame_oversize_counterexample :
  Forall pixel8 oversize_frame /\
  0 <= seq init < 2 ^ 16 /\
  flags init = 0 /\
  packRawFrame ledSpeakPacketWs2812 oversize_frame init = (Raise struct_error, init).
Proof.
  split; [apply black_frame_pixel8|]. split; [cbn [seq init]; lia|].
  split; [reflexivity|].
  apply packRawFrame_black_frame_raises.
  assert (E : Z.of_nat (Z.to_nat 1431655763) = 1431655763)
    by (apply Z2Nat.id; discriminate).
  rewrite E. discriminate.
Qed.

(** C3, amended. For every list of pixels with 8-bit channels whose payload
    fits the length field ([3 * len(pixels) + 8 < 2^32]) and every sender
    whose counter is below 2^16 and whose flags are one byte, the WS2812
    [packRawFrame] returns a packet and advances the counter by exactly one;
    [unpack] of that packet, by any instance, returns normally with the same
    pixel list, [msgType == 0x10], a recomputed CRC-32 equal to the declared
    checksum, a declared length equal to the number of bytes after the
    8-byte header, and the sequence number the counter had before the
    build. *)
Theorem ws2812_packet_roundtrip (pixels : list pixel) (o r : ledSpeakPacket) :
  Forall pixel8 pixels ->
  3 * len pixels + 8 < 2 ^ 32 ->
  0 <= seq o < 2 ^ 16 ->
  chan8 (flags o) ->
  exists pkt o1 r1,
    packRawFrame ledSpeakPacketWs2812 pixels o = (Ok pkt, o1) /\
    seq o1 = seq o + 1 /\
    unpack ledSpeakPacketWs2812 pkt r = (Ok tt, r1) /\
    fb r1 = Some (map tuple_of_pixel pixels) /\
    msgType r1 = Some 0x10 /\
    (exists c, payloadCrc r1 = Some c /\ localCrc r1 = Some c) /\
    rcvdLen r1 = Some (len pkt) /\
    payloadLen r1 = Some (len pkt - 8) /\
    payloadSeq r1 = Some (seq o).
Proof.
  intros Hpx Hl Hs Hf.
  pose proof (ws2812_packPixels_ok pixels Hpx) as Hp.
  set (pixelData := map byte_of (flat_map ws2812_wire pixels)) in *.
  assert (Hlen : len pixelData + 8 < 2 ^ 32).
  { unfold pixelData. rewrite len_map, ws2812_wire_length. exact Hl. }
  change (2 ^ 16) with 65536 in Hs.
  exists (raw_packet (seq o) (flags o) pixelData), (set_seq (seq o + 1) o),
    (parsed ledSpeakPacketWs2812 (raw_packet (seq o) (flags o) pixelData) r).
  destruct (raw_packet_fields (seq o) (flags o) pixelData Hs Hf Hlen)
    as (F0 & F4 & F8 & _ & F11 & _ & S8 & S16).
  split; [apply (packRawFrame_ok ledSpeakPacketWs2812); assumption|].
  split; [reflexivity|].
  split; [apply unpack_ok; rewrite raw_packet_length; lia|].
  unfold parsed.
  cbn [fb msgType payloadCrc localCrc rcvdLen payloadLen payloadSeq unpackPixels
       ledSpeakPacketWs2812].
  rewrite F0, F4, F8, F11, S8, S16.
  split; [f_equal; apply ws2812_decode_encoded, Hpx|].
  split; [reflexivity|].
  split; [eexists; split; reflexivity|].
  split; [reflexivity|].
  split; reflexivity.
Qed.

Lemma ws2812_packet_roundtrip_witness :
  Forall pixel8 framePixels /\
  3 * len framePixels + 8 < 2 ^ 32 /\
  0 <= seq init < 2 ^ 16 /\
  chan8 (flags init) /\
  exists pkt o1 r1,
    packRawFrame ledSpeakPacketWs2812 framePixels init = (Ok pkt, o1) /\
    seq o1 = seq init + 1 /\
    unpack ledSpeakPacketWs2812 pkt init = (Ok tt, r1) /\
    fb r1 = Some [[255; 0; 0]; [0; 255; 0]; [0; 0; 255]] /\
    msgType r1 = Some 0x10 /\
    (exists c, payloadCrc r1 = Some c /\ localCrc r1 = Some c) /\
    rcvdLen r1 = Some (len pkt) /\
    payloadLen r1 = Some (len pkt - 8) /\
    payloadSeq r1 = Some (seq init).
Proof.
  assert (H1 : Forall pixel8 framePixels) by (unfold framePixels; pixel8_concrete).
  assert (H2 : 3 * len framePixels + 8 < 2 ^ 32) by (cbn; lia).
  assert (H3 : 0 <= seq init < 2 ^ 16) by (cbn; lia).
  assert (H4 : chan8 (flags init)) by (unfold chan8; cbn; lia).
  split; [exact H1|]. split; [exact H2|]. split; [exact H3|]. split; [exact H4|].
  exact (ws2812_packet_roundtrip framePixels init init H1 H2 H3 H4).
Defined.

(** ** The sequence counter *)

(** C2 fails at the counter value 65535: the build succeeds and carries the
    sequence number 65535, the counter then is 65536, not 0, and the next
    build raises [struct.error] and leaves the counter where it is. *)
Theorem packRawFrame_seq_no_wraparound drv pixels o pkt o1 :
  seq o = 65535 ->
  packRawFrame drv pixels o = (Ok pkt, o1) ->
  field 8 2 pkt = 65535 /\
  seq o1 = 65536 /\
  seq o1 <> 0 /\
  packRawFrame drv pixels o1 = (Raise struct_error, o1).
Proof.
  intros Hs H. apply packRawFrame_inv in H.
  destruct H as (pixelData & Hp & -> & -> & Hr & Hf & Hl).
  destruct (raw_packet_fields (seq o) (flags o) pixelData Hr Hf Hl)
    as (_ & _ & F8 & _).
  rewrite F8. cbn [seq set_seq]. rewrite Hs.
  split; [reflexivity|]. split; [reflexivity|]. split; [discriminate|].
  apply (packRawFrame_out_of_range drv pixels pixelData _ Hp).
  left. cbn [seq set_seq]. lia.
Qed.

Lemma packRawFrame_seq_no_wraparound_witness :
  seq (set_seq 65535 init) = 65535 /\
  packRawFrame ledSpeakPacketWs2812 framePixels (set_seq 65535 init)
  = (Ok last_packet, set_seq 65536 init) /\
  field 8 2 last_packet = 65535 /\
  seq (set_seq 65536 init) = 65536 /\
  seq (set_seq 65536 init) <> 0 /\
  packRawFrame ledSpeakPacketWs2812 framePixels (set_seq 65536 init)
  = (Raise struct_error, set_seq 65536 init).
Proof.
  assert (H1 : seq (set_seq 65535 init) = 65535) by reflexivity.
  assert (H2 : packRawFrame ledSpeakPacketWs2812 framePixels (set_seq 65535 init)
               = (Ok last_packet, set_seq 65536 init))
    by (vm_compute; reflexivity).
  split; [exact H1|]. split; [exact H2|].
  exact (packRawFrame_seq_no_wraparound ledSpeakPacketWs2812 framePixels
           (set_seq 65535 init) last_packet (set_seq 65536 init) H1 H2).
Defined.

(** While the counter stays within sixteen bits every build succeeds, and
    the datagrams carry consecutive sequence numbers. *)
Lemma sendRawFrames_ok drv pixels pixelData (n : nat) :
  packPixels drv pixels = Ok pixelData ->
  len pixelData + 8 < 2 ^ 32 ->
  forall o,
    chan8 (flags o) -> 0 <= seq o -> seq o + Z.of_nat n <= 65536 ->
    exists sent o',
      sendRawFrames drv pixels n o = (Ok sent, o') /\
      seq o' = seq o + Z.of_nat n /\ flags o' = flags o /\
      map (field 8 2) sent = count_from (seq o) n.
Proof.
  intros Hp Hl. induction n as [|n IH]; intros o Hf H0 Hn.
  - exists [], o. cbn [sendRawFrames ret]. repeat apply conj; try reflexivity. lia.
  - assert (Hs : 0 <= seq o < 65536) by lia.
    destruct (IH (set_seq (seq o + 1) o)) as (sent & o' & E & Es & Ef & Em);
      cbn [seq flags set_seq]; try assumption; try lia.
    cbn [seq flags set_seq] in Es, Ef, Em.
    exists (raw_packet (seq o) (flags o) pixelData :: sent), o'.
    cbn [sendRawFrames]. unfold bind at 1.
    rewrite (packRawFrame_ok _ _ _ _ Hp Hs Hf Hl).
    unfold bind at 1. rewrite E. cbn [ret map count_from].
    destruct (raw_packet_fields (seq o) (flags o) pixelData Hs Hf Hl)
      as (_ & _ & F8 & _).
    rewrite F8, Em. repeat apply conj; try reflexivity; [lia|assumption].
Qed.

(** One build more and the loop raises. *)
Lemma sendRawFrames_overflow drv pixels pixelData (n : nat) :
  packPixels drv pixels = Ok pixelData ->
  len pixelData + 8 < 2 ^ 32 ->
  forall o,
    chan8 (flags o) -> 0 <= seq o -> seq o + Z.of_nat n = 65536 ->
    exists o',
      sendRawFrames drv pixels (S n) o = (Raise struct_error, o') /\
      seq o' = 65536.
Proof.
  intros Hp Hl. induction n as [|n IH]; intros o Hf H0 Hn.
  - exists o. cbn [sendRawFrames]. unfold bind at 1.
    rewrite (packRawFrame_out_of_range _ _ _ _ Hp) by (left; lia).
    split; [reflexivity|lia].
  - assert (Hs : 0 <= seq o < 65536) by lia.
    destruct (IH (set_seq (seq o + 1) o)) as (o' & E & Es);
      cbn [seq flags set_seq]; try assumption; try lia.
    exists o'. split; [|exact Es].
    change (sendRawFrames drv pixels (S (S n)))
      with (bind (packRawFrame drv pixels) (fun packetData =>
            bind (sendRawFrames drv pixels (S n)) (fun sent =>
            ret (packetData :: sent)))).
    unfold bind at 1. rewrite (packRawFrame_ok _ _ _ _ Hp Hs Hf Hl).
    unfold bind at 1. rewrite E. reflexivity.
Qed.

(** From a fresh sender: 65536 builds succeed and carry the sequence numbers
    0 to 65535; the 65537th raises. No datagram after the first carries the
    sequence number 0 again. *)
Lemma sendRawFrames_from_init :
  (exists sent o',
     sendRawFrames ledSpeakPacketWs2812 framePixels (Z.to_nat 65536) init
     = (Ok sent, o') /\
     seq o' = 65536 /\
     map (field 8 2) sent = count_from 0 (Z.to_nat 65536)) /\
  (exists o',
     sendRawFrames ledSpeakPacketWs2812 framePixels (S (Z.to_nat 65536)) init
     = (Raise struct_error, o') /\
     seq o' = 65536).
Proof.
  assert (E : Z.of_nat (Z.to_nat 65536) = 65536) by (apply Z2Nat.id; discriminate).
  assert (Hp : packPixels ledSpeakPacketWs2812 framePixels
               = Ok (ascii_bytes [0;255;0; 255;0;0; 0;0;255])) by reflexivity.
  assert (Hl : len (ascii_bytes [0;255;0; 255;0;0; 0;0;255]) + 8 < 2 ^ 32)
    by (cbn; lia).
  assert (Hf : chan8 (flags init)) by (unfold chan8; cbn; lia).
  split.
  - destruct (sendRawFrames_ok _ _ _ (Z.to_nat 65536) Hp Hl init Hf)
      as (sent & o' & H1 & H2 & _ & H3);
      [cbn [seq init]; lia | cbn [seq init]; lia |].
    exists sent, o'. cbn [seq init] in H2, H3. rewrite E in H2.
    repeat apply conj; assumption.
  - apply (sendRawFrames_overflow _ _ _ (Z.to_nat 65536) Hp Hl init Hf);
      cbn [seq init]; lia.
Qed.

(** ** The flags stay one byte *)

Lemma field_1_chan8 (off : nat) (data : bytes) : chan8 (field off 1 data).
Proof.
  unfold field, struct.be_uint, chan8.
  destruct (skipn off data) as [|b t]; cbn [firstn fold_left]; [lia|].
  pose proof (byte_val_range b). lia.
Qed.

Lemma unpack_flags drv data o :
  chan8 (flags o) -> chan8 (flags (snd (unpack drv data o))).
Proof.
  intros Hf. destruct (Nat.lt_ge_cases (length data) 16) as [H|H].
  - unfold unpack, bind, assign, lift.
    destruct (Nat.lt_ge_cases (length data) 8) as [H8|H8].
    { rewrite (unpack_from_short _ data 0) by calcsize. exact Hf. }
    rewrite (unpack_from_ok _ data 0) by calcsize.
    cbn [struct.unpack_fields struct.size].
    destruct (Nat.lt_ge_cases (length data) 12) as [H12|H12].
    { rewrite (unpack_from_short _ data 8) by calcsize. exact Hf. }
    rewrite (unpack_from_ok _ data 8) by calcsize.
    cbn [struct.unpack_fields struct.size].
    rewrite (unpack_from_short _ data 12) by calcsize.
    cbn [snd flags set_msgType set_flags].
    rewrite !skipn_skipn. apply (field_1_chan8 10).
  - rewrite unpack_ok by exact H. apply field_1_chan8.
Qed.

Lemma packRawFrame_flags drv pixels o :
  flags (snd (packRawFrame drv pixels o)) = flags o.
Proof.
  destruct (packPixels drv pixels) as [pixelData|e] eqn:Hp.
  - destruct (packRawFrame drv pixels o) as [[pkt|e] o'] eqn:E.
    + apply packRawFrame_inv in E. destruct E as (_ & _ & _ & -> & _).
      reflexivity.
    + destruct (packRawFrame_raise _ _ _ _ _ _ Hp E) as [_ ->]. reflexivity.
  - run_method. rewrite Hp. reflexivity.
Qed.

(** ** Tampering *)

Lemma flip_byte_neq (b : byte) (k : Z) : 0 <= k < 8 -> flip_byte b k <> b.
Proof.
  intros Hk E. apply (f_equal byte_val) in E. unfold flip_byte in E.
  pose proof (byte_val_range b) as Hb.
  assert (P : 0 < Z.shiftl 1 k < 2 ^ 8).
  { rewrite Z.shiftl_1_l. split.
    - apply Z.pow_pos_nonneg; lia.
    - apply Z.pow_lt_mono_r; lia. }
  rewrite byte_val_of in E.
  - rewrite <- (Z.lxor_0_r (byte_val b)) in E at 2.
    apply lxor_cancel_l in E. lia.
  - unfold chan8.
    pose proof (lxor_bound 8 (byte_val b) (Z.shiftl 1 k)) as B.
    change (2 ^ 8) with 256 in *. lia.
Qed.

Lemma flip_bit_length (data : bytes) (i : nat) (k : Z) :
  length (flip_bit data i k) = length data.
Proof.
  revert i. induction data as [|b t IH]; intros [|j]; cbn [flip_bit length];
    try reflexivity.
  rewrite IH. reflexivity.
Qed.

Lemma flip_bit_app (pre rest : bytes) (i : nat) (k : Z) :
  (length pre <= i)%nat ->
  flip_bit (pre ++ rest) i k = pre ++ flip_bit rest (i - length pre) k.
Proof.
  revert i. induction pre as [|b pre IH]; intros i H; cbn [length app] in *.
  - rewrite Nat.sub_0_r. reflexivity.
  - destruct i as [|j]; [lia|]. cbn [flip_bit Nat.sub].
    rewrite IH by lia. reflexivity.
Qed.

Lemma flip_bit_split (data : bytes) (i : nat) (k : Z) :
  (i < length data)%nat ->
  exists pre b post,
    data = pre ++ b :: post /\ flip_bit data i k = pre ++ flip_byte b k :: post.
Proof.
  revert i. induction data as [|b t IH]; intros i H; cbn [length] in H; [lia|].
  destruct i as [|j].
  - exists [], b, t. split; reflexivity.
  - destruct (IH j) as (pre & c & post & E1 & E2); [lia|].
    exists (b :: pre), c, post. cbn [flip_bit app]. rewrite E2, <- E1.
    split; reflexivity.
Qed.




(** * Further properties of the code *)

(** ** The pixel encoders: when they raise *)

Lemma chan8_dec (x : Z) : {chan8 x} + {~ chan8 x}.
Proof.
  unfold chan8. destruct (Z_le_dec 0 x), (Z_le_dec x 255);
    [left; lia | right; lia ..].
Qed.

Lemma pack_field_B_raise (v : Z) :
  ~ chan8 v -> struct.pack_field struct.B v = Raise struct_error.
Proof.
  intros H. destruct (pack_field_cases struct.B v) as [E|E]; [|exact E].
  apply pack_field_inv in E. destruct E as [R _]. elim H.
  cbn [struct.size] in R. change (256 ^ Z.of_nat 1) with 256 in R.
  unfold chan8. lia.
Qed.

Lemma pack_BBB_raise (a b c : Z) :
  ~ (chan8 a /\ chan8 b /\ chan8 c) ->
  struct.pack [struct.B; struct.B; struct.B] [a; b; c] = Raise struct_error.
Proof.
  intros H. cbn [struct.pack].
  destruct (chan8_dec a) as [Ha|Ha];
    [rewrite (pack_field_B a Ha)|rewrite (pack_field_B_raise a Ha); reflexivity].
  destruct (chan8_dec b) as [Hb|Hb];
    [rewrite (pack_field_B b Hb)|rewrite (pack_field_B_raise b Hb); reflexivity].
  destruct (chan8_dec c) as [Hc|Hc];
    [tauto|rewrite (pack_field_B_raise c Hc); reflexivity].
Qed.

Lemma pack_BBBB_raise (h a b c : Z) :
  chan8 h -> ~ (chan8 a /\ chan8 b /\ chan8 c) ->
  struct.pack [struct.B; struct.B; struct.B; struct.B] [h; a; b; c]
  = Raise struct_error.
Proof.
  intros Hh H. cbn [struct.pack]. rewrite (pack_field_B h Hh). cbn [rbind].
  pose proof (pack_BBB_raise a b c H) as E. cbn [struct.pack] in E.
  destruct (struct.pack_field struct.B a) as [x|]; cbn [rbind] in *; [|exact E].
  destruct (struct.pack_field struct.B b) as [y|]; cbn [rbind] in *; [|exact E].
  destruct (struct.pack_field struct.B c) as [z|]; cbn [rbind] in *; [|exact E].
  discriminate.
Qed.

Lemma pixel8_dec (p : pixel) : {pixel8 p} + {~ pixel8 p}.
Proof.
  destruct p as [[r g] b]. unfold pixel8.
  destruct (chan8_dec r), (chan8_dec g), (chan8_dec b); tauto.
Qed.

Lemma ws2812_packPixels_raise (pixels : list pixel) :
  ~ Forall pixel8 pixels -> Ws2812.packPixels pixels = Raise struct_error.
Proof.
  unfold Ws2812.packPixels. induction pixels as [|[[r g] b] pixels IH]; intros H.
  - elim H. constructor.
  - cbn [mapM]. destruct (pixel8_dec (r, g, b)) as [Hp|Hp].
    + destruct Hp as (Hr & Hg & Hb). rewrite pack_BBB by assumption. cbn [rbind].
      assert (Ht : ~ Forall pixel8 pixels).
      { intros Ht. apply H. constructor; [exact (conj Hr (conj Hg Hb))|exact Ht]. }
      specialize (IH Ht).
      match type of IH with context [mapM ?f pixels] =>
        destruct (mapM f pixels) as [frames|e] end.
      * discriminate.
      * cbn [rbind] in *. exact IH.
    + rewrite pack_BBB_raise; [reflexivity|]. unfold pixel8 in Hp. tauto.
Qed.

Lemma p9813_packPixels_raise (pixels : list pixel) :
  ~ Forall pixel8 pixels -> P9813.packPixels pixels = Raise struct_error.
Proof.
  unfold P9813.packPixels. induction pixels as [|[[r g] b] pixels IH]; intros H.
  - elim H. constructor.
  - cbn [mapM]. destruct (pixel8_dec (r, g, b)) as [Hp|Hp].
    + destruct Hp as (Hr & Hg & Hb).
      rewrite pack_BBBB by (assumption || apply pixelHeader_chan8). cbn [rbind].
      assert (Ht : ~ Forall pixel8 pixels).
      { intros Ht. apply H. constructor; [exact (conj Hr (conj Hg Hb))|exact Ht]. }
      specialize (IH Ht).
      match type of IH with context [mapM ?f pixels] =>
        destruct (mapM f pixels) as [frames|e] end.
      * discriminate.
      * cbn [rbind] in *. exact IH.
    + rewrite pack_BBBB_raise; [reflexivity|apply pixelHeader_chan8|].
      unfold pixel8 in Hp. tauto.
Qed.

Lemma Forall_pixel8_dec (pixels : list pixel) :
  {Forall pixel8 pixels} + {~ Forall pixel8 pixels}.
Proof. apply Forall_dec, pixel8_dec. Qed.

(** X1. The WS2812 encoder returns bytes exactly when every channel of every
    pixel is in 0..255; on any other pixel list it raises [struct.error], and
    it raises nothing else. *)
Theorem ws2812_packPixels_succeeds_iff (pixels : list pixel) :
  ((exists packed, Ws2812.packPixels pixels = Ok packed) <-> Forall pixel8 pixels) /\
  (Ws2812.packPixels pixels = Raise struct_error <-> ~ Forall pixel8 pixels).
Proof.
  split; split.
  - intros [packed E]. destruct (Forall_pixel8_dec pixels) as [H|H]; [exact H|].
    rewrite (ws2812_packPixels_raise pixels H) in E. discriminate.
  - intros H. eexists. apply ws2812_packPixels_ok, H.
  - intros E H. rewrite (ws2812_packPixels_ok pixels H) in E. discriminate.
  - apply ws2812_packPixels_raise.
Qed.

(** X2. The P9813 encoder returns bytes exactly when every channel of every
    pixel is in 0..255; on any other pixel list it raises [struct.error]. The
    header byte it computes never causes the failure. *)
Theorem p9813_packPixels_succeeds_iff (pixels : list pixel) :
  ((exists packed, P9813.packPixels pixels = Ok packed) <-> Forall pixel8 pixels) /\
  (P9813.packPixels pixels = Raise struct_error <-> ~ Forall pixel8 pixels).
Proof.
  split; split.
  - intros [packed E]. destruct (Forall_pixel8_dec pixels) as [H|H]; [exact H|].
    rewrite (p9813_packPixels_raise pixels H) in E. discriminate.
  - intros H. eexists. apply p9813_packPixels_ok, H.
  - intros E H. rewrite (p9813_packPixels_ok pixels H) in E. discriminate.
  - apply p9813_packPixels_raise.
Qed.

(** ** The pixel decoders on arbitrary bytes *)

Lemma list_ind3 {A} (P : list A -> Prop) :
  P [] -> (forall a, P [a]) -> (forall a b, P [a; b]) ->
  (forall a b c t, P t -> P (a :: b :: c :: t)) ->
  forall l, P l.
Proof.
  intros H0 H1 H2 H3 l.
  assert (H : P l /\ (forall a, P (a :: l)) /\ (forall a b, P (a :: b :: l))).
  { induction l as [|x l (IH0 & IH1 & IH2)].
    - repeat split; auto.
    - repeat split; auto. }
  exact (proj1 H).
Qed.

Lemma list_ind4 {A} (P : list A -> Prop) :
  P [] -> (forall a, P [a]) -> (forall a b, P [a; b]) ->
  (forall a b c, P [a; b; c]) ->
  (forall a b c d t, P t -> P (a :: b :: c :: d :: t)) ->
  forall l, P l.
Proof.
  intros H0 H1 H2 H3 H4 l.
  assert (H : P l /\ (forall a, P (a :: l)) /\ (forall a b, P (a :: b :: l))
              /\ (forall a b c, P (a :: b :: c :: l))).
  { induction l as [|x l (IH0 & IH1 & IH2 & IH3)].
    - repeat split; auto.
    - repeat split; auto. }
  exact (proj1 H).
Qed.

Lemma ws2812_unpackPixels_cons (a b c : byte) (t : bytes) :
  Ws2812.unpackPixels (a :: b :: c :: t)
  = [byte_val b; byte_val a; byte_val c] :: Ws2812.unpackPixels t.
Proof. reflexivity. Qed.

Lemma p9813_unpackPixels_cons (a b c d : byte) (t : bytes) :
  P9813.unpackPixels (a :: b :: c :: d :: t)
  = [byte_val a; byte_val c; byte_val b; byte_val d] :: P9813.unpackPixels t.
Proof. reflexivity. Qed.

Lemma byte_at_skip3 (a b c : byte) (t : bytes) (i j : nat) :
  byte_at (a :: b :: c :: t) (3 * S i + j) = byte_at t (3 * i + j).
Proof.
  unfold byte_at. replace (3 * S i + j)%nat with (S (S (S (3 * i + j)))) by lia.
  reflexivity.
Qed.

Lemma byte_at_skip4 (a b c d : byte) (t : bytes) (i j : nat) :
  byte_at (a :: b :: c :: d :: t) (4 * S i + j) = byte_at t (4 * i + j).
Proof.
  unfold byte_at. replace (4 * S i + j)%nat with (S (S (S (S (4 * i + j))))) by lia.
  reflexivity.
Qed.

(** X3. On any byte string the WS2812 decoder returns one tuple per complete
    group of three bytes and ignores an incomplete last group; tuple [i] is
    (byte [3i+1], byte [3i], byte [3i+2]). It never raises. *)
Theorem ws2812_unpackPixels_shape (data : bytes) :
  (3 * length (Ws2812.unpackPixels data) <= length data
   < 3 * length (Ws2812.unpackPixels data) + 3)%nat /\
  forall i, (i < length (Ws2812.unpackPixels data))%nat ->
    nth_error (Ws2812.unpackPixels data) i
    = Some [byte_at data (3 * i + 1); byte_at data (3 * i); byte_at data (3 * i + 2)].
Proof.
  induction data as [| a | a b | a b c t [IHl IHn]] using list_ind3.
  - split; [cbn; lia|]. intros i Hi. cbn in Hi. lia.
  - split; [cbn; lia|]. intros i Hi. cbn in Hi. lia.
  - split; [cbn; lia|]. intros i Hi. cbn in Hi. lia.
  - rewrite ws2812_unpackPixels_cons. cbn [length]. split; [lia|].
    intros [|i] Hi.
    + reflexivity.
    + cbn [nth_error]. rewrite IHn by lia.
      rewrite !byte_at_skip3.
      rewrite <- (Nat.add_0_r (3 * S i)), byte_at_skip3, Nat.add_0_r. reflexivity.
Qed.

(** X4. On any byte string the P9813 decoder returns one 4-tuple per complete
    group of four bytes and ignores an incomplete last group; tuple [i] is
    (byte [4i], byte [4i+2], byte [4i+1], byte [4i+3]). The first byte of a
    group is returned as it is: no header byte is ever rejected. *)
Theorem p9813_unpackPixels_shape (data : bytes) :
  (4 * length (P9813.unpackPixels data) <= length data
   < 4 * length (P9813.unpackPixels data) + 4)%nat /\
  forall i, (i < length (P9813.unpackPixels data))%nat ->
    nth_error (P9813.unpackPixels data) i
    = Some [byte_at data (4 * i); byte_at data (4 * i + 2);
            byte_at data (4 * i + 1); byte_at data (4 * i + 3)].
Proof.
  induction data as [| a | a b | a b c | a b c d t [IHl IHn]] using list_ind4.
  - split; [cbn; lia|]. intros i Hi. cbn in Hi. lia.
  - split; [cbn; lia|]. intros i Hi. cbn in Hi. lia.
  - split; [cbn; lia|]. intros i Hi. cbn in Hi. lia.
  - split; [cbn; lia|]. intros i Hi. cbn in Hi. lia.
  - rewrite p9813_unpackPixels_cons. cbn [length]. split; [lia|].
    intros [|i] Hi.
    + reflexivity.
    + cbn [nth_error]. rewrite IHn by lia.
      rewrite !byte_at_skip4.
      rewrite <- (Nat.add_0_r (4 * S i)), byte_at_skip4, Nat.add_0_r. reflexivity.
Qed.

Lemma ws2812_pixels_of_cons (a b c : byte) (t : bytes) :
  ws2812_pixels_of (a :: b :: c :: t)
  = (byte_val b, byte_val a, byte_val c) :: ws2812_pixels_of t.
Proof. reflexivity. Qed.

Lemma ws2812_pixels_of_spec (data : bytes) :
  Ws2812.unpackPixels data = map tuple_of_pixel (ws2812_pixels_of data) /\
  Forall pixel8 (ws2812_pixels_of data) /\
  map byte_of (flat_map ws2812_wire (ws2812_pixels_of data))
  = firstn (3 * length (ws2812_pixels_of data)) data.
Proof.
  induction data as [| a | a b | a b c t (IH1 & IH2 & IH3)] using list_ind3;
    try (repeat split; constructor).
  rewrite ws2812_unpackPixels_cons, ws2812_pixels_of_cons.
  split; [cbn [map tuple_of_pixel]; rewrite IH1; reflexivity|]. split.
  - constructor; [|exact IH2]. repeat split; apply byte_val_range.
  - cbn [flat_map ws2812_wire app map length]. rewrite IH3, !byte_of_val.
    replace (3 * S (length (ws2812_pixels_of t)))%nat
      with (S (S (S (3 * length (ws2812_pixels_of t))))) by lia.
    reflexivity.
Qed.

Lemma ws2812_pixels_of_length (data : bytes) :
  length (ws2812_pixels_of data) = (length data / 3)%nat.
Proof.
  assert (B : (3 * length (ws2812_pixels_of data) <= length data
               < 3 * length (ws2812_pixels_of data) + 3)%nat).
  { induction data as [| a | a b | a b c t IH] using list_ind3;
      try (cbn; lia).
    rewrite ws2812_pixels_of_cons. cbn [length]. lia. }
  apply (Nat.div_unique _ 3 _ (length data - 3 * length (ws2812_pixels_of data)));
    lia.
Qed.

(** X5. Decoding any byte string with the WS2812 codec gives one pixel per
    complete group of three bytes (the length divided by three, rounded
    down), and encoding these pixels again never raises and returns the
    input without its incomplete last group: its first
    [3 * (len(data) // 3)] bytes. A string whose length is a multiple of
    three comes back unchanged. *)
Theorem ws2812_decode_then_encode (data : bytes) :
  exists pixels,
    Ws2812.unpackPixels data = map tuple_of_pixel pixels /\
    length pixels = (length data / 3)%nat /\
    Ws2812.packPixels pixels = Ok (firstn (3 * (length data / 3)) data) /\
    ((length data mod 3 = 0)%nat -> Ws2812.packPixels pixels = Ok data).
Proof.
  destruct (ws2812_pixels_of_spec data) as (H1 & H2 & H3).
  pose proof (ws2812_pixels_of_length data) as L.
  exists (ws2812_pixels_of data). split; [exact H1|]. split; [exact L|].
  assert (E : Ws2812.packPixels (ws2812_pixels_of data)
              = Ok (firstn (3 * (length data / 3)) data)).
  { rewrite (ws2812_packPixels_ok _ H2), H3, L. reflexivity. }
  split; [exact E|]. intros M. rewrite E. f_equal.
  pose proof (Nat.div_mod_eq (length data) 3) as D. rewrite M, Nat.add_0_r in D.
  rewrite <- D. apply firstn_all.
Qed.

(** X6. For every list of pixels with 8-bit channels, decoding what the
    P9813 codec encoded gives, for each pixel [(r, g, b)], the 4-tuple
    [(header, g, b, r)]: the colour bytes, written in the order b, g, r, are
    read back in the order g, r, b. *)
Theorem p9813_roundtrip_channels (pixels : list pixel) :
  Forall pixel8 pixels ->
  exists packed,
    P9813.packPixels pixels = Ok packed /\
    P9813.unpackPixels packed
    = map (fun '(r, g, b) => [P9813.pixelHeader r g b; g; b; r]) pixels.
Proof.
  intros H. destruct (p9813_decode_encoded pixels H) as (packed & Hp & Hu).
  exists packed. split; [exact Hp|]. rewrite Hu. reflexivity.
Qed.

Lemma p9813_roundtrip_channels_witness :
  Forall pixel8 [(1, 2, 3); (200, 100, 50)] /\
  exists packed,
    P9813.packPixels [(1, 2, 3); (200, 100, 50)] = Ok packed /\
    P9813.unpackPixels packed = [[255; 2; 3; 1]; [0xF8; 100; 50; 200]].
Proof.
  assert (H : Forall pixel8 [(1, 2, 3); (200, 100, 50)]) by pixel8_concrete.
  split; [exact H|].
  exact (p9813_roundtrip_channels [(1, 2, 3); (200, 100, 50)] H).
Defined.

(** ** The P9813 header byte *)

Lemma land_shifted_mask (m k j b : Z) :
  0 <= k -> 0 <= j ->
  Z.land (Z.shiftl m k) (Z.shiftr b j)
  = Z.shiftl (Z.land m (Z.shiftr b (j + k))) k.
Proof.
  intros Hk Hj. apply Z.bits_inj'. intros n Hn.
  rewrite Z.land_spec, !Z.shiftl_spec, Z.shiftr_spec by lia.
  destruct (Z.lt_ge_cases n k) as [H|H].
  - rewrite (Z.testbit_neg_r m), (Z.testbit_neg_r (Z.land m _)) by lia.
    reflexivity.
  - rewrite Z.land_spec, Z.shiftr_spec by lia. f_equal. f_equal. lia.
Qed.

Lemma top_bits_field (k j b : Z) :
  0 <= k -> 0 <= j -> j + k = 6 ->
  Z.land (Z.shiftl 3 k) (Z.shiftr b j) = 2 ^ k * ((b / 64) mod 4).
Proof.
  intros Hk Hj E. rewrite land_shifted_mask, E by assumption.
  rewrite Z.shiftl_mul_pow2 by assumption.
  rewrite Z.land_comm. change 3 with (Z.ones 2). rewrite Z.land_ones by lia.
  rewrite Z.shiftr_div_pow2 by lia. change (2 ^ 6) with 64. change (2 ^ 2) with 4.
  lia.
Qed.

(** X7. For all integers [r], [g], [b] the P9813 header byte is
    [255 - 16 * bb - 4 * gg - rr], where [bb], [gg], [rr] are the two top
    bits (bits 7 and 6) of blue, green and red: the bits [11] followed by the
    inverted top bits of the three channels. It always lies in 192..255. *)
Theorem p9813_pixelHeader_value (r g b : Z) :
  P9813.pixelHeader r g b
  = 255 - 16 * ((b / 64) mod 4) - 4 * ((g / 64) mod 4) - (r / 64) mod 4 /\
  192 <= P9813.pixelHeader r g b <= 255.
Proof.
  unfold P9813.pixelHeader.
  change 0x30 with (Z.shiftl 3 4). change 0x0C with (Z.shiftl 3 2).
  change 0x03 with (Z.shiftl 3 0).
  rewrite !top_bits_field by lia.
  change (2 ^ 4) with 16. change (2 ^ 2) with 4. change (2 ^ 0) with 1.
  rewrite Z.mul_1_l.
  pose proof (Z.mod_pos_bound (b / 64) 4) as Hb.
  pose proof (Z.mod_pos_bound (g / 64) 4) as Hg.
  pose proof (Z.mod_pos_bound (r / 64) 4) as Hr.
  set (bb := (b / 64) mod 4) in *. set (gg := (g / 64) mod 4) in *.
  set (rr := (r / 64) mod 4) in *.
  assert (Cb : bb = 0 \/ bb = 1 \/ bb = 2 \/ bb = 3) by lia.
  assert (Cg : gg = 0 \/ gg = 1 \/ gg = 2 \/ gg = 3) by lia.
  assert (Cr : rr = 0 \/ rr = 1 \/ rr = 2 \/ rr = 3) by lia.
  clearbody bb gg rr.
  destruct Cb as [-> | [-> | [-> | ->]]], Cg as [-> | [-> | [-> | ->]]],
           Cr as [-> | [-> | [-> | ->]]];
    (split; [reflexivity | cbn; lia]).
Qed.

(** ** Building a packet: failure, success, sizes *)

Lemma packRawFrame_pack_raise drv pixels e o :
  packPixels drv pixels = Raise e -> packRawFrame drv pixels o = (Raise e, o).
Proof. intros Hp. run_method. rewrite Hp. reflexivity. Qed.

(** X8. A build that raises leaves the instance exactly as it was: no
    sequence number is consumed. The exception is the one the pixel encoder
    raised, or [struct.error] from packing the header fields. *)
Theorem packRawFrame_failure_keeps_instance drv pixels o e o' :
  packRawFrame drv pixels o = (Raise e, o') ->
  o' = o /\ (e = struct_error \/ packPixels drv pixels = Raise e).
Proof.
  intros H. destruct (packPixels drv pixels) as [pixelData|e0] eqn:Hp.
  - destruct (packRawFrame_raise _ _ _ _ _ _ Hp H) as [-> ->]. auto.
  - rewrite (packRawFrame_pack_raise _ _ _ _ Hp) in H. inversion H; subst. auto.
Qed.

Lemma packRawFrame_failure_keeps_instance_witness :
  packRawFrame ledSpeakPacketP9813 bad_pixels (set_seq 7 init)
  = (Raise struct_error, set_seq 7 init) /\
  set_seq 7 init = set_seq 7 init /\
  (struct_error = struct_error \/
   packPixels ledSpeakPacketP9813 bad_pixels = Raise struct_error).
Proof.
  assert (H : packRawFrame ledSpeakPacketP9813 bad_pixels (set_seq 7 init)
              = (Raise struct_error, set_seq 7 init)) by reflexivity.
  split; [exact H|].
  exact (packRawFrame_failure_keeps_instance ledSpeakPacketP9813 bad_pixels
           (set_seq 7 init) struct_error (set_seq 7 init) H).
Defined.

(** X9. A build returns a packet exactly when the pixel encoder succeeds,
    the counter is in 0..65535, the flags are in 0..255 and the payload
    (8 bytes and the pixel bytes) is shorter than 2^32; when it returns, the
    only attribute it has changed is the counter, now one higher. *)
Theorem packRawFrame_succeeds_iff drv pixels o :
  ((exists pkt o1, packRawFrame drv pixels o = (Ok pkt, o1)) <->
   (exists pixelData,
      packPixels drv pixels = Ok pixelData /\
      0 <= seq o <= 65535 /\ 0 <= flags o <= 255 /\
      len pixelData + 8 < 2 ^ 32)) /\
  (forall pkt o1,
      packRawFrame drv pixels o = (Ok pkt, o1) -> o1 = set_seq (seq o + 1) o).
Proof.
  split; [split|].
  - intros (pkt & o1 & H). apply packRawFrame_inv in H.
    destruct H as (pd & Hp & _ & _ & Hs & Hf & Hl).
    exists pd. unfold chan8 in Hf. repeat apply conj; (assumption || lia).
  - intros (pd & Hp & Hs & Hf & Hl).
    exists (raw_packet (seq o) (flags o) pd), (set_seq (seq o + 1) o).
    apply packRawFrame_ok; (assumption || lia || exact Hf).
  - intros pkt o1 H. apply packRawFrame_inv in H.
    destruct H as (_ & _ & _ & -> & _). reflexivity.
Qed.

Lemma packRawFrame_pixelData drv pixels o pkt o1 :
  packRawFrame drv pixels o = (Ok pkt, o1) ->
  exists pixelData,
    packPixels drv pixels = Ok pixelData /\
    len pkt = 16 + len pixelData /\
    field 0 4 pkt = 8 + len pixelData /\
    field 12 4 pkt = len pixelData.
Proof.
  intros H. apply packRawFrame_inv in H.
  destruct H as (pd & Hp & -> & _ & Hs & Hf & Hl).
  destruct (raw_packet_fields (seq o) (flags o) pd Hs Hf Hl)
    as (F0 & _ & _ & _ & _ & F12 & _).
  exists pd. rewrite F0, F12, raw_packet_len.
  repeat apply conj; (assumption || lia).
Qed.

(** X10. A packet built for [n] pixels has [16 + 3n] bytes with the WS2812
    driver and [16 + 4n] bytes with the P9813 driver; its length field holds
    the byte count less 8 and its framebuffer length field holds [3n],
    respectively [4n] (four times the number of 32-bit words). *)
Theorem packRawFrame_sizes (pixels : list pixel) (o : ledSpeakPacket) :
  (forall pkt o1,
      packRawFrame ledSpeakPacketWs2812 pixels o = (Ok pkt, o1) ->
      len pkt = 16 + 3 * len pixels /\
      field 0 4 pkt = 8 + 3 * len pixels /\
      field 12 4 pkt = 3 * len pixels) /\
  (forall pkt o1,
      packRawFrame ledSpeakPacketP9813 pixels o = (Ok pkt, o1) ->
      len pkt = 16 + 4 * len pixels /\
      field 0 4 pkt = 8 + 4 * len pixels /\
      field 12 4 pkt = 4 * len pixels).
Proof.
  split; intros pkt o1 H;
    destruct (packRawFrame_pixelData _ _ _ _ _ H) as (pd & Hp & -> & -> & ->);
    cbn [packPixels ledSpeakPacketWs2812 ledSpeakPacketP9813] in Hp;
    destruct (Forall_pixel8_dec pixels) as [Hpx|Hpx].
  - rewrite (ws2812_packPixels_ok _ Hpx) in Hp. inversion Hp.
    rewrite len_map, ws2812_wire_length. repeat split; lia.
  - rewrite (ws2812_packPixels_raise _ Hpx) in Hp. discriminate.
  - rewrite (p9813_packPixels_ok _ Hpx) in Hp. inversion Hp.
    rewrite len_map, p9813_wire_length. repeat split; lia.
  - rewrite (p9813_packPixels_raise _ Hpx) in Hp. discriminate.
Qed.

(** X11. Every packet a build returns, with any driver, is parsed by
    [unpack] without anomaly, by any instance: the decoded pixels are the
    driver's decoding of the bytes its encoder produced, [payloadFbLen] is
    the 1-tuple of their count, the message type is 0x10, the sequence number
    and the flags are the sender's, the recomputed checksum equals the
    declared one and the declared length is the received length less 8. The
    receiving instance takes over the sender's flags and keeps its own
    counter. *)
Theorem packet_roundtrip_any_driver drv pixels o pkt o1 r :
  packRawFrame drv pixels o = (Ok pkt, o1) ->
  exists pixelData r1,
    packPixels drv pixels = Ok pixelData /\
    unpack drv pkt r = (Ok tt, r1) /\
    fb r1 = Some (unpackPixels drv pixelData) /\
    payloadFbLen r1 = Some [len pixelData] /\
    msgType r1 = Some 0x10 /\
    payloadSeq r1 = Some (seq o) /\
    flags r1 = flags o /\
    (exists c, payloadCrc r1 = Some c /\ localCrc r1 = Some c) /\
    (exists n, payloadLen r1 = Some n /\ rcvdLen r1 = Some (n + 8)) /\
    seq r1 = seq r.
Proof.
  intros H. apply packRawFrame_inv in H.
  destruct H as (pd & Hp & -> & _ & Hs & Hf & Hl).
  destruct (raw_packet_fields (seq o) (flags o) pd Hs Hf Hl)
    as (F0 & F4 & F8 & F10 & F11 & F12 & S8 & S16).
  exists pd, (parsed drv (raw_packet (seq o) (flags o) pd) r).
  split; [exact Hp|].
  split; [apply unpack_ok; rewrite raw_packet_length; lia|].
  unfold parsed.
  cbn [fb payloadFbLen msgType payloadSeq flags payloadCrc localCrc payloadLen
       rcvdLen seq].
  rewrite F0, F4, F8, F10, F11, F12, S8, S16.
  repeat apply conj; try reflexivity.
  - eexists. split; reflexivity.
  - eexists. split; [reflexivity|]. f_equal. lia.
Qed.

Lemma packet_roundtrip_any_driver_witness :
  packRawFrame ledSpeakPacketP9813 framePixels init
  = (Ok p9813_first_packet, set_seq 1 init) /\
  exists pixelData r1,
    packPixels ledSpeakPacketP9813 framePixels = Ok pixelData /\
    unpack ledSpeakPacketP9813 p9813_first_packet (set_seq 40 init) = (Ok tt, r1) /\
    fb r1 = Some (unpackPixels ledSpeakPacketP9813 pixelData) /\
    payloadFbLen r1 = Some [len pixelData] /\
    msgType r1 = Some 0x10 /\
    payloadSeq r1 = Some (seq init) /\
    flags r1 = flags init /\
    (exists c, payloadCrc r1 = Some c /\ localCrc r1 = Some c) /\
    (exists n, payloadLen r1 = Some n /\ rcvdLen r1 = Some (n + 8)) /\
    seq r1 = seq (set_seq 40 init).
Proof.
  assert (H : packRawFrame ledSpeakPacketP9813 framePixels init
              = (Ok p9813_first_packet, set_seq 1 init))
    by (vm_compute; reflexivity).
  split; [exact H|].
  exact (packet_roundtrip_any_driver ledSpeakPacketP9813 framePixels init
           p9813_first_packet (set_seq 1 init) (set_seq 40 init) H).
Defined.

(** ** Parsing: what a call leaves in the instance *)

Lemma unpack_cases drv data o :
  ((length data < 8)%nat /\
   unpack drv data o = (Raise struct_error, set_rcvdLen (len data) o)) \/
  ((8 <= length data < 12)%nat /\
   unpack drv data o
   = (Raise struct_error,
      set_payloadCrc (field 4 4 data)
        (set_payloadLen (field 0 4 data) (set_rcvdLen (len data) o)))) \/
  ((12 <= length data < 16)%nat /\
   unpack drv data o
   = (Raise struct_error,
      set_msgType (field 11 1 data)
        (set_flags (field 10 1 data)
           (set_payloadSeq (field 8 2 data)
              (set_payloadCrc (field 4 4 data)
                 (set_payloadLen (field 0 4 data) (set_rcvdLen (len data) o))))))) \/
  ((16 <= length data)%nat /\ unpack drv data o = (Ok tt, parsed drv data o)).
Proof.
  destruct (Nat.lt_ge_cases (length data) 16) as [H|H];
    [|right; right; right; split; [exact H|apply unpack_ok, H]].
  unfold unpack, bind, assign, lift.
  destruct (Nat.lt_ge_cases (length data) 8) as [H8|H8].
  { left. split; [exact H8|].
    rewrite (unpack_from_short _ data 0) by calcsize. reflexivity. }
  rewrite (unpack_from_ok _ data 0) by calcsize.
  cbn [struct.unpack_fields struct.size].
  destruct (Nat.lt_ge_cases (length data) 12) as [H12|H12].
  { right; left. split; [lia|].
    rewrite (unpack_from_short _ data 8) by calcsize.
    rewrite !skipn_skipn. reflexivity. }
  rewrite (unpack_from_ok _ data 8) by calcsize.
  cbn [struct.unpack_fields struct.size].
  rewrite (unpack_from_short _ data 12) by calcsize.
  right; right; left. split; [lia|]. rewrite !skipn_skipn. reflexivity.
Qed.

(** X12. No call of [unpack], returning or raising, changes the sequence
    counter of the instance. *)
Theorem unpack_keeps_seq drv data o : seq (snd (unpack drv data o)) = seq o.
Proof.
  destruct (unpack_cases drv data o)
    as [[_ ->] | [[_ ->] | [[_ ->] | [_ ->]]]]; reflexivity.
Qed.

(** X13. After [unpack] of a buffer of at least 12 bytes, whether it
    returned or raised, the flags of the instance are byte 10 of that
    buffer; the next packet the same instance builds carries that byte as its
    flags. *)
Theorem unpack_then_build_echoes_flags drv data o :
  (12 <= length data)%nat ->
  flags (snd (unpack drv data o)) = field 10 1 data /\
  forall pixels pkt o1,
    packRawFrame drv pixels (snd (unpack drv data o)) = (Ok pkt, o1) ->
    field 10 1 pkt = field 10 1 data.
Proof.
  intros H.
  assert (F : flags (snd (unpack drv data o)) = field 10 1 data).
  { destruct (unpack_cases drv data o)
      as [[L _] | [[L _] | [[_ ->] | [_ ->]]]]; try lia; reflexivity. }
  split; [exact F|]. intros pixels pkt o1 B. apply packRawFrame_inv in B.
  destruct B as (pd & _ & -> & _ & Hs & Hf & Hl).
  destruct (raw_packet_fields _ _ pd Hs Hf Hl) as (_ & _ & _ & F10 & _).
  rewrite F10. exact F.
Qed.

Lemma unpack_then_build_echoes_flags_witness :
  (12 <= length truncated_packet)%nat /\
  flags (snd (unpack ledSpeakPacketWs2812 truncated_packet init))
  = field 10 1 truncated_packet /\
  forall pixels pkt o1,
    packRawFrame ledSpeakPacketWs2812 pixels
      (snd (unpack ledSpeakPacketWs2812 truncated_packet init)) = (Ok pkt, o1) ->
    field 10 1 pkt = field 10 1 truncated_packet.
Proof.
  assert (H : (12 <= length truncated_packet)%nat) by (cbn; lia).
  split; [exact H|].
  exact (unpack_then_build_echoes_flags ledSpeakPacketWs2812 truncated_packet init H).
Defined.

(** X14. [unpack] of a buffer shorter than 16 bytes raises after it has
    already assigned what it could read: [rcvdLen] always; the declared
    length and checksum when there are at least 8 bytes; the sequence number,
    the flags and the message type too when there are at least 12. Nothing
    else changes. *)
Theorem unpack_short_buffer_state drv data o :
  (length data < 16)%nat ->
  unpack drv data o
  = (Raise struct_error,
     if (length data <? 8)%nat then set_rcvdLen (len data) o
     else if (length data <? 12)%nat then
       set_payloadCrc (field 4 4 data)
         (set_payloadLen (field 0 4 data) (set_rcvdLen (len data) o))
     else
       set_msgType (field 11 1 data)
         (set_flags (field 10 1 data)
            (set_payloadSeq (field 8 2 data)
               (set_payloadCrc (field 4 4 data)
                  (set_payloadLen (field 0 4 data) (set_rcvdLen (len data) o)))))).
Proof.
  intros H.
  destruct (unpack_cases drv data o)
    as [[L ->] | [[L ->] | [[L ->] | [L _]]]]; try lia.
  - apply Nat.ltb_lt in L. rewrite L. reflexivity.
  - destruct L as [L1 L2]. apply Nat.ltb_ge in L1. apply Nat.ltb_lt in L2.
    rewrite L1, L2. reflexivity.
  - destruct L as [L1 L2].
    assert (L0 : (8 <= length data)%nat) by lia.
    apply Nat.ltb_ge in L1, L0. rewrite L1, L0. reflexivity.
Qed.

Lemma unpack_short_buffer_state_witness :
  (length truncated_packet < 16)%nat /\
  unpack ledSpeakPacketP9813 truncated_packet (set_seq 5 init)
  = (Raise struct_error,
     mkPacket 0 5 (Some 15) (Some 4) (Some 0x01020304) (Some 7) (Some 16)
              None None None).
Proof.
  assert (H : (length truncated_packet < 16)%nat) by (cbn; lia).
  split; [exact H|].
  exact (unpack_short_buffer_state ledSpeakPacketP9813 truncated_packet
           (set_seq 5 init) H).
Defined.

(** X15. The attributes after [unpack] of a buffer of at least 16 bytes
    depend only on that buffer, the driver and the counter: whatever an
    earlier [unpack] of another buffer left behind, returning or raising, is
    overwritten. *)
Theorem unpack_forgets_previous_buffer drv data earlier o :
  (16 <= length data)%nat ->
  unpack drv data (snd (unpack drv earlier o)) = unpack drv data o.
Proof.
  intros H. rewrite (unpack_ok drv data o H), (unpack_ok drv data _ H).
  unfold parsed.
  destruct (unpack_cases drv earlier o)
    as [[_ ->] | [[_ ->] | [[_ ->] | [_ ->]]]]; reflexivity.
Qed.

Lemma unpack_forgets_previous_buffer_witness :
  (16 <= length mismatched_packet)%nat /\
  unpack ledSpeakPacketWs2812 mismatched_packet
    (snd (unpack ledSpeakPacketWs2812 truncated_packet init))
  = unpack ledSpeakPacketWs2812 mismatched_packet init.
Proof.
  assert (H : (16 <= length mismatched_packet)%nat) by (cbn; lia).
  split; [exact H|].
  exact (unpack_forgets_previous_buffer ledSpeakPacketWs2812 mismatched_packet
           truncated_packet init H).
Defined.

(** ** The checksum: linearity, and errors confined to 32 bits *)













(** ** Errors confined to 32 consecutive bits *)










(** ** Tampering with the first eight bytes *)

Lemma be_uint_inj (l l' : bytes) :
  length l = length l' -> struct.be_uint l = struct.be_uint l' -> l = l'.
Proof.
  revert l'. induction l as [|b l IH] using rev_ind;
    intros l' L E; destruct l' as [|b' l' _] using rev_ind;
    rewrite ?length_app in L; cbn [length] in L; try lia; [reflexivity|].
  rewrite !be_uint_snoc in E.
  pose proof (byte_val_range b). pose proof (byte_val_range b').
  assert (Eb : byte_val b = byte_val b') by lia.
  assert (El : struct.be_uint l = struct.be_uint l') by lia.
  f_equal; [apply IH; [lia|exact El]|f_equal; apply byte_val_inj, Eb].
Qed.

Lemma flip_bit_app_lt (pre rest : bytes) (i : nat) (k : Z) :
  (i < length pre)%nat -> flip_bit (pre ++ rest) i k = flip_bit pre i k ++ rest.
Proof.
  revert i. induction pre as [|b pre IH]; intros i H; cbn [length] in H; [lia|].
  destruct i as [|j]; cbn [flip_bit app]; [reflexivity|].
  rewrite IH by lia. reflexivity.
Qed.

Lemma flip_bit_neq (data : bytes) (i : nat) (k : Z) :
  (i < length data)%nat -> 0 <= k < 8 -> flip_bit data i k <> data.
Proof.
  intros Hi Hk E.
  destruct (flip_bit_split data i k Hi) as (pre & b & post & E1 & E2).
  rewrite E2, E1 in E. apply app_inv_head in E. inversion E as [Eb].
  exact (flip_byte_neq b k Hk Eb).
Qed.

Lemma be_uint_flip (n : nat) (x : Z) (i : nat) (k : Z) :
  0 <= x < 256 ^ Z.of_nat n -> (i < n)%nat -> 0 <= k < 8 ->
  struct.be_uint (flip_bit (struct.be_bytes n x) i k) <> x.
Proof.
  intros Hx Hi Hk E. rewrite <- (be_uint_be_bytes n x Hx) in E at 2.
  apply be_uint_inj in E; [|rewrite flip_bit_length; reflexivity].
  revert E. apply flip_bit_neq; [rewrite be_bytes_length; exact Hi|exact Hk].
Qed.

(** X17. Invert one bit in the first eight bytes of a packet a build
    returned: [unpack] still returns normally. If the bit is in the length
    field (bytes 0-3), the recomputed checksum still equals the declared one
    and only the declared length disagrees with the received length; if it is
    in the checksum field (bytes 4-7), the checksums differ and the lengths
    agree. *)
Theorem tampered_header_detected drv pixels o pkt o1 (i : nat) (k : Z) r :
  packRawFrame drv pixels o = (Ok pkt, o1) ->
  (i < 8)%nat -> 0 <= k < 8 ->
  exists r1 n declared computed,
    unpack drv (flip_bit pkt i k) r = (Ok tt, r1) /\
    rcvdLen r1 = Some (len pkt) /\
    payloadLen r1 = Some n /\
    payloadCrc r1 = Some declared /\
    localCrc r1 = Some computed /\
    ((i < 4)%nat -> computed = declared /\ n + 8 <> len pkt) /\
    ((4 <= i)%nat -> computed <> declared /\ n + 8 = len pkt).
Proof.
  intros H Hi Hk. apply packRawFrame_inv in H.
  destruct H as (pd & _ & -> & _ & Hs & Hf & Hl).
  set (payLoad := raw_payload (seq o) (flags o) pd).
  pose proof (raw_payload_len (seq o) (flags o) pd) as Lp. fold payLoad in Lp.
  pose proof (len_nonneg pd) as Hn.
  pose proof (crc32_u32 payLoad) as Hc. unfold u32 in Hc.
  pose proof (raw_packet_len (seq o) (flags o) pd) as Lk.
  pose proof (raw_packet_length (seq o) (flags o) pd) as Lk'.
  set (pkt := raw_packet (seq o) (flags o) pd) in *.
  exists (parsed drv (flip_bit pkt i k) r).
  assert (U : unpack drv (flip_bit pkt i k) r
              = (Ok tt, parsed drv (flip_bit pkt i k) r)).
  { apply unpack_ok. rewrite flip_bit_length. lia. }
  assert (R : len (flip_bit pkt i k) = len pkt).
  { unfold len. rewrite flip_bit_length. reflexivity. }
  unfold parsed. cbn [rcvdLen payloadLen payloadCrc localCrc].
  destruct (Nat.lt_ge_cases i 4) as [H4|H4].
  - assert (E : flip_bit pkt i k
                = flip_bit (struct.be_bytes 4 (len payLoad)) i k
                    ++ struct.be_bytes 4 (calcCrc payLoad) ++ payLoad).
    { unfold pkt, raw_packet. fold payLoad.
      apply flip_bit_app_lt. rewrite be_bytes_length. exact H4. }
    assert (L4 : length (flip_bit (struct.be_bytes 4 (len payLoad)) i k) = 4%nat)
      by (rewrite flip_bit_length; apply be_bytes_length).
    exists (struct.be_uint (flip_bit (struct.be_bytes 4 (len payLoad)) i k)),
      (calcCrc payLoad), (calcCrc payLoad).
    split; [exact U|]. split; [f_equal; exact R|]. rewrite E.
    split; [f_equal; unfold field; cbn [skipn];
            rewrite firstn_app_exact by exact L4; reflexivity|].
    split.
    { f_equal. unfold field. rewrite skipn_app_exact by exact L4.
      rewrite firstn_app_exact by apply be_bytes_length.
      apply be_uint_be_bytes. change (256 ^ Z.of_nat 4) with (2 ^ 32).
      unfold calcCrc. lia. }
    split.
    { f_equal. change 8%nat with (4 + 4)%nat.
      rewrite skipn_app_plus by exact L4.
      rewrite skipn_app_exact by apply be_bytes_length. reflexivity. }
    split; [|intros; lia]. intros _. split; [reflexivity|].
    intros Eq.
    apply (be_uint_flip 4 (len payLoad) i k); try assumption.
    + change (256 ^ Z.of_nat 4) with (2 ^ 32). lia.
    + lia.
  - assert (E : flip_bit pkt i k
                = struct.be_bytes 4 (len payLoad)
                    ++ flip_bit (struct.be_bytes 4 (calcCrc payLoad)) (i - 4) k
                    ++ payLoad).
    { unfold pkt, raw_packet. fold payLoad.
      rewrite flip_bit_app by (rewrite be_bytes_length; exact H4).
      rewrite be_bytes_length. f_equal.
      apply flip_bit_app_lt. rewrite be_bytes_length. lia. }
    assert (L4 : length (flip_bit (struct.be_bytes 4 (calcCrc payLoad)) (i - 4) k)
                 = 4%nat)
      by (rewrite flip_bit_length; apply be_bytes_length).
    exists (len payLoad),
      (struct.be_uint (flip_bit (struct.be_bytes 4 (calcCrc payLoad)) (i - 4) k)),
      (calcCrc payLoad).
    split; [exact U|]. split; [f_equal; exact R|]. rewrite E.
    split.
    { f_equal. apply field_here. change (256 ^ Z.of_nat 4) with (2 ^ 32). lia. }
    split.
    { f_equal. rewrite field_skip by lia. cbn [Nat.sub]. unfold field.
      cbn [skipn]. rewrite firstn_app_exact by exact L4. reflexivity. }
    split.
    { f_equal. rewrite skipn_be_bytes by lia. cbn [Nat.sub].
      rewrite skipn_app_exact by exact L4. reflexivity. }
    split; [intros; lia|]. intros _. split; [|lia].
    intros Eq. symmetry in Eq. revert Eq.
    apply be_uint_flip; [|lia|exact Hk].
    change (256 ^ Z.of_nat 4) with (2 ^ 32). unfold calcCrc. lia.
Qed.

Lemma tampered_header_detected_witness :
  packRawFrame ledSpeakPacketWs2812 framePixels (set_seq 65535 init)
  = (Ok last_packet, set_seq 65536 init) /\
  (3 < 8)%nat /\ 0 <= 0 < 8 /\
  exists r1 n declared computed,
    unpack ledSpeakPacketWs2812 (flip_bit last_packet 3 0) init = (Ok tt, r1) /\
    rcvdLen r1 = Some (len last_packet) /\
    payloadLen r1 = Some n /\
    payloadCrc r1 = Some declared /\
    localCrc r1 = Some computed /\
    ((3 < 4)%nat -> computed = declared /\ n + 8 <> len last_packet) /\
    ((4 <= 3)%nat -> computed <> declared /\ n + 8 = len last_packet).
Proof.
  assert (H1 : packRawFrame ledSpeakPacketWs2812 framePixels (set_seq 65535 init)
               = (Ok last_packet, set_seq 65536 init))
    by (vm_compute; reflexivity).
  assert (H2 : (3 < 8)%nat) by lia.
  assert (H3 : 0 <= 0 < 8) by lia.
  repeat (split; [assumption|]).
  exact (tampered_header_detected ledSpeakPacketWs2812 framePixels
           (set_seq 65535 init) last_packet (set_seq 65536 init) 3 0 init
           H1 H2 H3).
Defined.

(** ** What [dump] prints *)

(** X18. After [unpack] of a buffer of at least 16 bytes, [dump] prints four
    lines and does not raise. The first shows the received length and the
    declared length plus 8; the second shows the declared checksum (bytes
    4-7) after the words "calculated CRC" and the recomputed one after
    "indicated CRC"; the third the sequence number, flags and message type;
    the fourth the decoded pixel list. *)
Theorem dump_after_unpack drv data o :
  (16 <= length data)%nat ->
  dump (snd (unpack drv data o))
  = ([("received " +++ str (len data) +++ " bytes; indicated len = "
         +++ str (field 0 4 data + 8))%string;
      ("calculated CRC = " +++ str (field 4 4 data) +++ "; indicated CRC = "
         +++ str (binascii.crc32 (skipn 8 data)))%string;
      ("seq number = " +++ str (field 8 2 data) +++ " flags = "
         +++ str (field 10 1 data) +++ " type = " +++ str (field 11 1 data))%string;
      repr_list (unpackPixels drv (skipn 16 data))],
     None).
Proof.
  intros H. rewrite (unpack_ok drv data o H). reflexivity.
Qed.

Lemma dump_after_unpack_witness :
  (16 <= length mismatched_packet)%nat /\
  dump (snd (unpack ledSpeakPacketWs2812 mismatched_packet init))
  = (["received 19 bytes; indicated len = 12";
      "calculated CRC = 16909060; indicated CRC = 306100464";
      "seq number = 7 flags = 1 type = 16";
      "[(20, 10, 30)]"]%string,
     None).
Proof.
  assert (H : (16 <= length mismatched_packet)%nat) by (cbn; lia).
  split; [exact H|].
  exact (dump_after_unpack ledSpeakPacketWs2812 mismatched_packet init H).
Defined.

(** X19. [dump] on an instance that has never unpacked anything raises
    [AttributeError] and prints nothing. After a first [unpack] that raised
    on a buffer shorter than 16 bytes it raises too: with fewer than 8 bytes
    before printing anything, otherwise after the first line only, because
    the recomputed checksum does not exist. *)
Theorem dump_without_complete_unpack :
  dump init = ([], Some (AttributeError "rcvdLen"%string)) /\
  forall drv data,
    (length data < 16)%nat ->
    dump (snd (unpack drv data init))
    = if (length data <? 8)%nat
      then ([], Some (AttributeError "payloadLen"%string))
      else ([("received " +++ str (len data) +++ " bytes; indicated len = "
                +++ str (field 0 4 data + 8))%string],
            Some (AttributeError "localCrc"%string)).
Proof.
  split; [reflexivity|]. intros drv data H.
  destruct (unpack_cases drv data init)
    as [[L ->] | [[L ->] | [[L ->] | [L _]]]]; try lia.
  - apply Nat.ltb_lt in L. rewrite L. reflexivity.
  - destruct L as [L _]. apply Nat.ltb_ge in L. rewrite L. reflexivity.
  - assert (L0 : (8 <= length data)%nat) by lia.
    apply Nat.ltb_ge in L0. rewrite L0. reflexivity.
Qed.



Example dump_p9813_first_packet :
  dump (snd (unpack ledSpeakPacketP9813 p9813_first_packet init))
  = (["received 28 bytes; indicated len = 28";
      "calculated CRC = 2405459469; indicated CRC = 2405459469";
      "seq number = 0 flags = 0 type = 16";
      "[(252, 0, 0, 255), (243, 255, 0, 0), (207, 0, 255, 0)]"]%string,
     None).
Proof. vm_compute. reflexivity. Qed.

(** ** The node and the commands of [main] *)

Lemma frames_cons (pd : bytes) (s f : Z) (n : nat) :
  frames pd s f (S n) = raw_packet s f pd :: frames pd (s + 1) f n.
Proof. reflexivity. Qed.

Lemma set_seq_set_seq (v w : Z) (p : ledSpeakPacket) :
  set_seq v (set_seq w p) = set_seq v p.
Proof. reflexivity. Qed.

Lemma set_seq_same (p : ledSpeakPacket) : set_seq (seq p) p = p.
Proof. destruct p. reflexivity. Qed.

(** The sending loop, while the counter fits and no [sendto] raises. *)
Lemma send_loop (K : socket_ops) (pixels : list pixel) (pd : bytes) :
  (forall d a s, fst (sock_sendto K d a s) <> None) ->
  len pd + 8 < 2 ^ 32 ->
  forall (n : nat) (node : Node.t K),
    packPixels (Node.cls node) pixels = Ok pd ->
    chan8 (flags (Node.packet node)) ->
    0 <= seq (Node.packet node) ->
    seq (Node.packet node) + Z.of_nat n <= 65536 ->
    for_range n (Node.sendRawFrame pixels) node
    = (Done tt,
       Node.mk
         (send_all K
            (frames pd (seq (Node.packet node)) (flags (Node.packet node)) n)
            (Node.host node, Node.port node) (Node.sock node))
         (Node.host node) (Node.port node) (Node.verbose node) (Node.drv node)
         (Node.UDP_BUF_SIZE node) (Node.cls node)
         (set_seq (seq (Node.packet node) + Z.of_nat n) (Node.packet node))
         (Node.packetData node)
         (Node.stdout node
            ++ (if Node.verbose node
                then map repr_bytes_hex
                       (frames pd (seq (Node.packet node))
                               (flags (Node.packet node)) n)
                else []))).
Proof.
  intros Hsend Hl. induction n as [|n IH]; intros node Hp Hf H0 Hn.
  - destruct node as [s h p v d b c pk pdata out]. cbn.
    rewrite Z.add_0_r, set_seq_same. destruct v; rewrite app_nil_r; reflexivity.
  - destruct node as [s h p v d b c pk pdata out].
    cbn [Node.cls Node.packet Node.host Node.port Node.sock Node.verbose
         Node.drv Node.UDP_BUF_SIZE Node.packetData Node.stdout] in *.
    assert (Hs : 0 <= seq pk < 65536) by lia.
    cbn [for_range]. unfold Node.sendRawFrame at 1.
    cbn [Node.cls Node.packet Node.host Node.port Node.sock Node.verbose
         Node.set_packet Node.set_sock].
    rewrite (packRawFrame_ok _ _ _ _ Hp Hs Hf Hl).
    destruct (sock_sendto K (raw_packet (seq pk) (flags pk) pd) (h, p) s)
      as [[sent|] s'] eqn:E.
    2:{ exfalso. apply (Hsend (raw_packet (seq pk) (flags pk) pd) (h, p) s).
        rewrite E. reflexivity. }
    rewrite frames_cons. cbn [send_all map]. rewrite E. cbn [snd].
    destruct v; cbn [Node.print Node.cls Node.packet Node.host Node.port
                     Node.sock Node.verbose Node.drv Node.UDP_BUF_SIZE
                     Node.packetData Node.stdout];
      rewrite IH;
      cbn [Node.cls Node.packet Node.host Node.port Node.sock Node.verbose
           Node.drv Node.UDP_BUF_SIZE Node.packetData Node.stdout
           Node.print Node.set_sock Node.set_packet seq flags set_seq];
      try assumption; try lia;
      rewrite ?set_seq_set_seq, <- ?app_assoc;
      replace (seq pk + 1 + Z.of_nat n) with (seq pk + Z.of_nat (S n)) by lia;
      reflexivity.
Qed.

Lemma for_range_add {St : Type} (n m : nat)
      (body : St -> outcome unit * St) (s : St) :
  for_range (n + m) body s
  = match for_range n body s with
    | (Done _, s') => for_range m body s'
    | (Fail e, s') => (Fail e, s')
    end.
Proof.
  revert s. induction n as [|n IH]; intros s; cbn [for_range Nat.add].
  - reflexivity.
  - destruct (body s) as [[u|e] s']; [apply IH|reflexivity].
Qed.

Lemma frame_bytes_packed (name : String.string) (c : driver) :
  (name = "ws2812"%string /\ c = ledSpeakPacketWs2812) \/
  (name = "p9813"%string /\ c = ledSpeakPacketP9813) ->
  packPixels c framePixels = Ok (frame_bytes name) /\
  len (frame_bytes name) + 8 < 2 ^ 32.
Proof.
  intros [[-> ->] | [-> ->]]; (split; [reflexivity|cbn; lia]).
Qed.

Lemma node_init_known (K : socket_ops) (h name : String.string) (p : Z)
      (v : bool) (out : list String.string) (s0 : sock_t K) :
  socket K = Some s0 ->
  name = "ws2812"%string \/ name = "p9813"%string ->
  exists c,
    Node.init K h p name v out
    = (Done (Node.mk s0 h p v name 2048 c init None out), out) /\
    ((name = "ws2812"%string /\ c = ledSpeakPacketWs2812) \/
     (name = "p9813"%string /\ c = ledSpeakPacketP9813)).
Proof.
  intros Hs [-> | ->]; unfold Node.init; rewrite Hs.
  - exists ledSpeakPacketWs2812. split; [reflexivity|left; auto].
  - exists ledSpeakPacketP9813. split; [reflexivity|right; auto].
Qed.

Lemma node_init_unknown (K : socket_ops) (h name : String.string) (p : Z)
      (v : bool) (out : list String.string) (s0 : sock_t K) :
  socket K = Some s0 ->
  name <> "p9813"%string -> name <> "ws2812"%string ->
  Node.init K h p name v out
  = (Fail (SystemExit 1), out ++ [("invalid driver type: " +++ name)%string]).
Proof.
  intros Hs N1 N2. unfold Node.init. rewrite Hs.
  apply String.eqb_neq in N1, N2. rewrite N1, N2. reflexivity.
Qed.

(** X21. With a driver name other than "ws2812" and "p9813" (the default,
    "none", is one) the commands [simple] and [listen] print their banner
    and "invalid driver type: NAME" and exit with status 1; the socket that
    was created is never used. [simple] without a host prints
    "missing --host or -t" and exits with status 1 before that. *)
Theorem main_unknown_driver_exits (K : socket_ops) (a : args) (s0 : sock_t K) :
  socket K = Some s0 ->
  arg_drv a <> "p9813"%string -> arg_drv a <> "ws2812"%string ->
  (arg_command a = "listen"%string ->
   main K a
   = (Fail (SystemExit 1),
      [("Listening for packets on port " +++ str (arg_port a))%string;
       ("invalid driver type: " +++ arg_drv a)%string],
      None)) /\
  (forall h,
      arg_command a = "simple"%string -> arg_host a = Some h -> h <> ""%string ->
      main K a
      = (Fail (SystemExit 1),
         [("Transmitting packets to " +++ h +++ ":" +++ str (arg_port a))%string;
          ("invalid driver type: " +++ arg_drv a)%string],
         None)) /\
  (arg_command a = "simple"%string ->
   arg_host a = None \/ arg_host a = Some ""%string ->
   main K a = (Fail (SystemExit 1), ["missing --host or -t"%string], None)).
Proof.
  intros Hs N1 N2. repeat apply conj.
  - intros Hc. unfold main. rewrite Hc. cbn [String.eqb Ascii.eqb Bool.eqb].
    rewrite (node_init_unknown K _ _ _ _ _ s0 Hs N1 N2). reflexivity.
  - intros h Hc Hh Hne. unfold main. rewrite Hc, Hh.
    cbn [String.eqb Ascii.eqb Bool.eqb].
    apply String.eqb_neq in Hne. rewrite Hne.
    rewrite (node_init_unknown K _ _ _ _ _ s0 Hs N1 N2). reflexivity.
  - intros Hc [Hh | Hh]; unfold main; rewrite Hc, Hh; reflexivity.
Qed.

Lemma main_unknown_driver_exits_witness :
  socket (log_socket []) = Some ([], []) /\
  arg_drv default_driver_args <> "p9813"%string /\
  arg_drv default_driver_args <> "ws2812"%string /\
  main (log_socket []) default_driver_args
  = (Fail (SystemExit 1),
     ["Listening for packets on port 2112"; "invalid driver type: none"]%string,
     None).
Proof.
  assert (H1 : socket (log_socket []) = Some ([], [])) by reflexivity.
  assert (H2 : arg_drv default_driver_args <> "p9813"%string)
    by (cbn; discriminate).
  assert (H3 : arg_drv default_driver_args <> "ws2812"%string)
    by (cbn; discriminate).
  split; [exact H1|]. split; [exact H2|]. split; [exact H3|].
  exact (proj1 (main_unknown_driver_exits (log_socket []) default_driver_args
                  ([], []) H1 H2 H3) eq_refl).
Defined.

(** X22. [simple] with a host, a known driver and a count of at most 65536,
    over a socket whose [sendto] does not raise: the process ends normally
    after calling [sendto] once per count with the packet for [framePixels],
    flags 0 and the sequence numbers 0, 1, 2, ..., each to (host, port). It
    prints the banner, and in verbose mode one line of hexadecimal digits
    per packet. *)
Theorem main_simple_sends (K : socket_ops) (a : args) (h : String.string)
        (s0 : sock_t K) :
  arg_command a = "simple"%string ->
  arg_host a = Some h -> h <> ""%string ->
  arg_drv a = "ws2812"%string \/ arg_drv a = "p9813"%string ->
  socket K = Some s0 ->
  (forall d ad s, fst (sock_sendto K d ad s) <> None) ->
  arg_count a <= 65536 ->
  exists node,
    main K a
    = (Done tt,
       ("Transmitting packets to " +++ h +++ ":" +++ str (arg_port a))%string
         :: (if arg_verbose a
             then map repr_bytes_hex
                      (frames (frame_bytes (arg_drv a)) 0 0 (Z.to_nat (arg_count a)))
             else []),
       Some node) /\
    Node.sock node
    = send_all K (frames (frame_bytes (arg_drv a)) 0 0 (Z.to_nat (arg_count a)))
               (h, arg_port a) s0 /\
    seq (Node.packet node) = Z.max 0 (arg_count a).
Proof.
  intros Hc Hh Hne Hd Hs Hsend Hn.
  destruct (node_init_known K h (arg_drv a) (arg_port a) (arg_verbose a)
              [("Transmitting packets to " +++ h +++ ":" +++ str (arg_port a))%string]
              s0 Hs Hd) as (c & Ei & Hcls).
  destruct (frame_bytes_packed _ _ Hcls) as [Hp Hl].
  unfold main. rewrite Hc, Hh. cbn [String.eqb Ascii.eqb Bool.eqb].
  apply String.eqb_neq in Hne. rewrite Hne, Ei.
  rewrite (send_loop K framePixels (frame_bytes (arg_drv a)) Hsend Hl);
    cbn [Node.cls Node.packet Node.host Node.port Node.sock Node.verbose
         Node.stdout seq flags init];
    [|exact Hp|unfold chan8; lia|lia|lia].
  eexists. split; [reflexivity|].
  cbn [Node.sock Node.packet seq set_seq]. split; [reflexivity|lia].
Qed.

Lemma main_simple_sends_witness :
  arg_command simple_args = "simple"%string /\
  arg_host simple_args = Some "10.0.0.7"%string /\
  "10.0.0.7"%string <> ""%string /\
  (arg_drv simple_args = "ws2812"%string \/ arg_drv simple_args = "p9813"%string) /\
  socket (log_socket []) = Some ([], []) /\
  (forall d ad s, fst (sock_sendto (log_socket []) d ad s) <> None) /\
  arg_count simple_args <= 65536 /\
  exists node,
    main (log_socket []) simple_args
    = (Done tt,
       ("Transmitting packets to " +++ "10.0.0.7" +++ ":"
          +++ str (arg_port simple_args))%string
         :: (if arg_verbose simple_args
             then map repr_bytes_hex
                      (frames (frame_bytes (arg_drv simple_args)) 0 0
                              (Z.to_nat (arg_count simple_args)))
             else []),
       Some node) /\
    Node.sock node
    = send_all (log_socket [])
               (frames (frame_bytes (arg_drv simple_args)) 0 0
                       (Z.to_nat (arg_count simple_args)))
               ("10.0.0.7"%string, arg_port simple_args) ([], []) /\
    seq (Node.packet node) = Z.max 0 (arg_count simple_args).
Proof.
  assert (H1 : arg_command simple_args = "simple"%string) by reflexivity.
  assert (H2 : arg_host simple_args = Some "10.0.0.7"%string) by reflexivity.
  assert (H3 : "10.0.0.7"%string <> ""%string) by discriminate.
  assert (H4 : arg_drv simple_args = "ws2812"%string
               \/ arg_drv simple_args = "p9813"%string) by (left; reflexivity).
  assert (H5 : socket (log_socket []) = Some ([], [])) by reflexivity.
  assert (H6 : forall d ad s, fst (sock_sendto (log_socket []) d ad s) <> None)
    by (intros; cbn; discriminate).
  assert (H7 : arg_count simple_args <= 65536) by (cbn; lia).
  repeat (split; [assumption|]).
  exact (main_simple_sends (log_socket []) simple_args "10.0.0.7"%string
           ([], []) H1 H2 H3 H4 H5 H6 H7).
Defined.

Example main_simple_run :
  fst (main (log_socket []) simple_args)
  = (Done tt,
     ["Transmitting packets to 10.0.0.7:2112";
      "b'00000011bcc5a4bc000000100000000900ff00ff00000000ff'";
      "b'0000001112ad352d000100100000000900ff00ff00000000ff'";
      "b'000000113b6581df000200100000000900ff00ff00000000ff'"]%string).
Proof. vm_compute. reflexivity. Qed.

(** X23. [simple] with a count above 65536, otherwise as before: the
    process calls [sendto] for the 65536 packets with the sequence numbers 0
    to 65535 and then ends with [struct.error], raised by the next build; the
    counter stays at 65536. *)
Theorem main_simple_counter_overflow (K : socket_ops) (a : args)
        (h : String.string) (s0 : sock_t K) :
  arg_command a = "simple"%string ->
  arg_host a = Some h -> h <> ""%string ->
  arg_drv a = "ws2812"%string \/ arg_drv a = "p9813"%string ->
  socket K = Some s0 ->
  (forall d ad s, fst (sock_sendto K d ad s) <> None) ->
  65536 < arg_count a ->
  exists node,
    main K a
    = (Fail (PacketError struct_error),
       ("Transmitting packets to " +++ h +++ ":" +++ str (arg_port a))%string
         :: (if arg_verbose a
             then map repr_bytes_hex
                      (frames (frame_bytes (arg_drv a)) 0 0 (Z.to_nat 65536))
             else []),
       Some node) /\
    Node.sock node
    = send_all K (frames (frame_bytes (arg_drv a)) 0 0 (Z.to_nat 65536))
               (h, arg_port a) s0 /\
    seq (Node.packet node) = 65536.
Proof.
  intros Hc Hh Hne Hd Hs Hsend Hn.
  destruct (node_init_known K h (arg_drv a) (arg_port a) (arg_verbose a)
              [("Transmitting packets to " +++ h +++ ":" +++ str (arg_port a))%string]
              s0 Hs Hd) as (c & Ei & Hcls).
  destruct (frame_bytes_packed _ _ Hcls) as [Hp Hl].
  unfold main. rewrite Hc, Hh. cbn [String.eqb Ascii.eqb Bool.eqb].
  apply String.eqb_neq in Hne. rewrite Hne, Ei.
  assert (EN : Z.of_nat (Z.to_nat 65536) = 65536) by (apply Z2Nat.id; discriminate).
  set (N := Z.to_nat 65536) in *. clearbody N.
  assert (Ec : exists m, Z.to_nat (arg_count a) = (N + S m)%nat).
  { exists (Z.to_nat (arg_count a) - N - 1)%nat. lia. }
  destruct Ec as [m ->]. rewrite for_range_add.
  rewrite (send_loop K framePixels (frame_bytes (arg_drv a)) Hsend Hl);
    cbn [Node.cls Node.packet Node.host Node.port Node.sock Node.verbose
         Node.stdout seq flags init];
    [|exact Hp|unfold chan8; lia|lia|lia].
  cbn [for_range]. unfold Node.sendRawFrame at 1.
  cbn [Node.cls Node.packet].
  rewrite (packRawFrame_out_of_range c framePixels _ _ Hp)
    by (left; cbn [seq set_seq init]; lia).
  cbn [Node.set_packet Node.sock Node.host Node.port Node.verbose Node.drv
       Node.UDP_BUF_SIZE Node.cls Node.packet Node.packetData Node.stdout].
  eexists. split; [reflexivity|].
  cbn [Node.sock Node.packet Node.set_packet seq set_seq init].
  split; [reflexivity|lia].
Qed.

Lemma main_simple_counter_overflow_witness :
  arg_command overflow_args = "simple"%string /\
  arg_host overflow_args = Some "10.0.0.7"%string /\
  "10.0.0.7"%string <> ""%string /\
  (arg_drv overflow_args = "ws2812"%string
   \/ arg_drv overflow_args = "p9813"%string) /\
  socket (log_socket []) = Some ([], []) /\
  (forall d ad s, fst (sock_sendto (log_socket []) d ad s) <> None) /\
  65536 < arg_count overflow_args /\
  exists node,
    main (log_socket []) overflow_args
    = (Fail (PacketError struct_error),
       ("Transmitting packets to " +++ "10.0.0.7" +++ ":"
          +++ str (arg_port overflow_args))%string
         :: (if arg_verbose overflow_args
             then map repr_bytes_hex
                      (frames (frame_bytes (arg_drv overflow_args)) 0 0
                              (Z.to_nat 65536))
             else []),
       Some node) /\
    Node.sock node
    = send_all (log_socket [])
               (frames (frame_bytes (arg_drv overflow_args)) 0 0 (Z.to_nat 65536))
               ("10.0.0.7"%string, arg_port overflow_args) ([], []) /\
    seq (Node.packet node) = 65536.
Proof.
  assert (H1 : arg_command overflow_args = "simple"%string) by reflexivity.
  assert (H2 : arg_host overflow_args = Some "10.0.0.7"%string) by reflexivity.
  assert (H3 : "10.0.0.7"%string <> ""%string) by discriminate.
  assert (H4 : arg_drv overflow_args = "ws2812"%string
               \/ arg_drv overflow_args = "p9813"%string) by (right; reflexivity).
  assert (H5 : socket (log_socket []) = Some ([], [])) by reflexivity.
  assert (H6 : forall d ad s, fst (sock_sendto (log_socket []) d ad s) <> None)
    by (intros; cbn; discriminate).
  assert (H7 : 65536 < arg_count overflow_args) by (cbn; lia).
  repeat (split; [assumption|]).
  exact (main_simple_counter_overflow (log_socket []) overflow_args
           "10.0.0.7"%string ([], []) H1 H2 H3 H4 H5 H6 H7).
Defined.

Lemma unpack_short_raises drv data o :
  (length data < 16)%nat ->
  exists o', unpack drv data o = (Raise struct_error, o').
Proof.
  intros H.
  destruct (unpack_cases drv data o)
    as [[_ E] | [[_ E] | [[_ E] | [L _]]]]; try lia; eexists; exact E.
Qed.

Lemma listen_once_short (K : socket_ops) (n : Node.t K)
      (data : bytes) (addr : String.string * Z) (s2 : sock_t K) :
  sock_recvfrom K (Node.UDP_BUF_SIZE n) (Node.sock n) = (Some (data, addr), s2) ->
  (length data < 16)%nat ->
  exists n',
    listen_once n = (Fail (PacketError struct_error), n') /\
    Node.stdout n' = Node.stdout n /\
    Node.sock n' = s2 /\
    Node.packetData n' = Some data.
Proof.
  intros Hr H. destruct addr as [ad po].
  destruct (unpack_short_raises (Node.cls n) data (Node.packet n) H) as [o' E].
  unfold listen_once, Node.recvPacket. rewrite Hr.
  unfold Node.decodePacket.
  cbn [Node.packetData Node.set_packetData Node.set_sock Node.cls Node.packet].
  rewrite E. eexists. split; [reflexivity|]. repeat apply conj; reflexivity.
Qed.

(** X24. One receive-decode-print round of [listen], when [recvfrom]
    returns a datagram: with at least 16 bytes the round prints the four
    lines of [dump] for it and returns, leaving the counter alone; with fewer
    than 16 bytes it raises [struct.error] and prints nothing. *)
Theorem listen_once_outcome (K : socket_ops) (n : Node.t K)
        (data : bytes) (addr : String.string * Z) (s2 : sock_t K) :
  sock_recvfrom K (Node.UDP_BUF_SIZE n) (Node.sock n) = (Some (data, addr), s2) ->
  ((16 <= length data)%nat ->
   exists n',
     listen_once n = (Done tt, n') /\
     Node.stdout n'
     = Node.stdout n
         ++ [("received " +++ str (len data) +++ " bytes; indicated len = "
                +++ str (field 0 4 data + 8))%string;
             ("calculated CRC = " +++ str (field 4 4 data)
                +++ "; indicated CRC = "
                +++ str (binascii.crc32 (skipn 8 data)))%string;
             ("seq number = " +++ str (field 8 2 data) +++ " flags = "
                +++ str (field 10 1 data) +++ " type = "
                +++ str (field 11 1 data))%string;
             repr_list (unpackPixels (Node.cls n) (skipn 16 data))] /\
     Node.sock n' = s2 /\
     Node.packetData n' = Some data /\
     seq (Node.packet n') = seq (Node.packet n)) /\
  ((length data < 16)%nat ->
   exists n',
     listen_once n = (Fail (PacketError struct_error), n') /\
     Node.stdout n' = Node.stdout n /\
     Node.sock n' = s2 /\
     Node.packetData n' = Some data).
Proof.
  intros Hr. destruct addr as [ad po]. split; intros H.
  - unfold listen_once, Node.recvPacket. rewrite Hr.
    unfold Node.decodePacket.
    cbn [Node.packetData Node.set_packetData Node.set_sock Node.cls Node.packet].
    rewrite (unpack_ok _ data _ H). unfold Node.dumpPacket.
    cbn [Node.packet Node.set_packet].
    change (dump (parsed (Node.cls n) data (Node.packet n)))
      with ([("received " +++ str (len data) +++ " bytes; indicated len = "
                +++ str (field 0 4 data + 8))%string;
             ("calculated CRC = " +++ str (field 4 4 data)
                +++ "; indicated CRC = "
                +++ str (binascii.crc32 (skipn 8 data)))%string;
             ("seq number = " +++ str (field 8 2 data) +++ " flags = "
                +++ str (field 10 1 data) +++ " type = "
                +++ str (field 11 1 data))%string;
             repr_list (unpackPixels (Node.cls n) (skipn 16 data))],
            @None pyexn).
    eexists. split; [reflexivity|]. repeat apply conj; reflexivity.
  - apply (listen_once_short K n data (ad, po) s2 Hr H).
Qed.

Lemma listen_once_outcome_witness :
  sock_recvfrom (log_socket [mismatched_packet])
                (Node.UDP_BUF_SIZE (listening_node mismatched_packet))
                (Node.sock (listening_node mismatched_packet))
  = (Some (mismatched_packet, ("peer"%string, 2112)), ([], [])) /\
  exists n',
    listen_once (listening_node mismatched_packet) = (Done tt, n') /\
    Node.stdout n'
    = ["Listening for packets on port 2112";
       "received 19 bytes; indicated len = 12";
       "calculated CRC = 16909060; indicated CRC = 306100464";
       "seq number = 7 flags = 1 type = 16";
       "[(20, 10, 30)]"]%string /\
    Node.sock n' = ([], []) /\
    Node.packetData n' = Some mismatched_packet /\
    seq (Node.packet n') = seq (Node.packet (listening_node mismatched_packet)).
Proof.
  assert (H : sock_recvfrom (log_socket [mismatched_packet])
                (Node.UDP_BUF_SIZE (listening_node mismatched_packet))
                (Node.sock (listening_node mismatched_packet))
              = (Some (mismatched_packet, ("peer"%string, 2112)), ([], [])))
    by reflexivity.
  split; [exact H|].
  assert (L : (16 <= length mismatched_packet)%nat) by (cbn; lia).
  exact (proj1 (listen_once_outcome (log_socket [mismatched_packet])
                  (listening_node mismatched_packet) mismatched_packet
                  ("peer"%string, 2112) ([], []) H) L).
Defined.

(** X25. [listen], with a known driver and a positive count, when the first
    datagram [recvfrom] returns has fewer than 16 bytes: the process ends
    with [struct.error] after printing only its banner; the socket is left
    as [recvfrom] left it, so [close] was not called. *)
Theorem main_listen_short_datagram (K : socket_ops) (a : args)
        (s0 s1 s2 : sock_t K) (data : bytes) (addr : String.string * Z) :
  arg_command a = "listen"%string ->
  arg_drv a = "ws2812"%string \/ arg_drv a = "p9813"%string ->
  socket K = Some s0 ->
  sock_bind K (""%string, arg_port a) s0 = (Some tt, s1) ->
  0 < arg_count a ->
  sock_recvfrom K 2048 s1 = (Some (data, addr), s2) ->
  (length data < 16)%nat ->
  exists node,
    main K a
    = (Fail (PacketError struct_error),
       [("Listening for packets on port " +++ str (arg_port a))%string],
       Some node) /\
    Node.sock node = s2 /\
    Node.packetData node = Some data.
Proof.
  intros Hc Hd Hs Hb Hn Hr Hl.
  destruct (node_init_known K "dummy"%string (arg_drv a) (arg_port a) (arg_verbose a)
              [("Listening for packets on port " +++ str (arg_port a))%string]
              s0 Hs Hd) as (c & Ei & _).
  unfold main. rewrite Hc. cbn [String.eqb Ascii.eqb Bool.eqb]. rewrite Ei.
  unfold Node.listen. cbn [Node.port Node.sock]. rewrite Hb.
  destruct (Z.to_nat (arg_count a)) as [|m] eqn:Em; [lia|].
  cbn [for_range].
  assert (Hr' : sock_recvfrom K
                  (Node.UDP_BUF_SIZE
                     (Node.set_sock s1
                        (Node.mk s0 "dummy"%string (arg_port a) (arg_verbose a)
                                 (arg_drv a) 2048 c init None
                                 [("Listening for packets on port "
                                     +++ str (arg_port a))%string])))
                  (Node.sock
                     (Node.set_sock s1
                        (Node.mk s0 "dummy"%string (arg_port a) (arg_verbose a)
                                 (arg_drv a) 2048 c init None
                                 [("Listening for packets on port "
                                     +++ str (arg_port a))%string])))
                = (Some (data, addr), s2)) by exact Hr.
  destruct (listen_once_short K _ data addr s2 Hr' Hl)
    as (n' & E & Eo & Es & Ed).
  rewrite E. exists n'. rewrite Eo. cbn [Node.stdout Node.set_sock].
  repeat apply conj; (reflexivity || assumption).
Qed.

Lemma main_listen_short_datagram_witness :
  arg_command listen_args = "listen"%string /\
  (arg_drv listen_args = "ws2812"%string \/ arg_drv listen_args = "p9813"%string) /\
  socket (log_socket [truncated_packet]) = Some ([], [truncated_packet]) /\
  sock_bind (log_socket [truncated_packet]) (""%string, arg_port listen_args)
            ([], [truncated_packet])
  = (Some tt, ([], [truncated_packet])) /\
  0 < arg_count listen_args /\
  sock_recvfrom (log_socket [truncated_packet]) 2048 ([], [truncated_packet])
  = (Some (truncated_packet, ("peer"%string, 2112)), ([], [])) /\
  (length truncated_packet < 16)%nat /\
  exists node,
    main (log_socket [truncated_packet]) listen_args
    = (Fail (PacketError struct_error),
       [("Listening for packets on port " +++ str (arg_port listen_args))%string],
       Some node) /\
    Node.sock node = ([], []) /\
    Node.packetData node = Some truncated_packet.
Proof.
  assert (H1 : arg_command listen_args = "listen"%string) by reflexivity.
  assert (H2 : arg_drv listen_args = "ws2812"%string
               \/ arg_drv listen_args = "p9813"%string) by (right; reflexivity).
  assert (H3 : socket (log_socket [truncated_packet])
               = Some ([], [truncated_packet])) by reflexivity.
  assert (H4 : sock_bind (log_socket [truncated_packet])
                 (""%string, arg_port listen_args) ([], [truncated_packet])
               = (Some tt, ([], [truncated_packet]))) by reflexivity.
  assert (H5 : 0 < arg_count listen_args) by (cbn; lia).
  assert (H6 : sock_recvfrom (log_socket [truncated_packet]) 2048
                 ([], [truncated_packet])
               = (Some (truncated_packet, ("peer"%string, 2112)), ([], [])))
    by reflexivity.
  assert (H7 : (length truncated_packet < 16)%nat) by (cbn; lia).
  repeat (split; [assumption|]).
  exact (main_listen_short_datagram (log_socket [truncated_packet]) listen_args
           ([], [truncated_packet]) ([], [truncated_packet]) ([], [])
           truncated_packet ("peer"%string, 2112) H1 H2 H3 H4 H5 H6 H7).
Defined.

Lemma node_set_packet_same (K : socket_ops) (n : Node.t K) :
  Node.set_packet (Node.packet n) n = n.
Proof. destruct n. reflexivity. Qed.

(** X26. [sendRawFrame] on a node: when the build raises, the exception
    goes through, no socket operation is called and the node is unchanged;
    when the build returns a packet, [sendto] is called once, with that
    packet and (host, port), and the counter of the node's packet instance
    has advanced by one whether [sendto] returns or raises, in which case the
    call ends with that failure. *)
Theorem sendRawFrame_outcomes (K : socket_ops) (pixels : list pixel)
        (n : Node.t K) :
  (forall e p,
      packRawFrame (Node.cls n) pixels (Node.packet n) = (Raise e, p) ->
      Node.sendRawFrame pixels n = (Fail (PacketError e), n)) /\
  (forall pkt p,
      packRawFrame (Node.cls n) pixels (Node.packet n) = (Ok pkt, p) ->
      Node.sock (snd (Node.sendRawFrame pixels n))
      = snd (sock_sendto K pkt (Node.host n, Node.port n) (Node.sock n)) /\
      seq (Node.packet (snd (Node.sendRawFrame pixels n)))
      = seq (Node.packet n) + 1 /\
      (fst (sock_sendto K pkt (Node.host n, Node.port n) (Node.sock n)) = None ->
       fst (Node.sendRawFrame pixels n) = Fail OSError) /\
      (fst (sock_sendto K pkt (Node.host n, Node.port n) (Node.sock n)) <> None ->
       fst (Node.sendRawFrame pixels n) = Done tt)).
Proof.
  split.
  - intros e p H. unfold Node.sendRawFrame. rewrite H.
    assert (Ep : p = Node.packet n).
    { destruct (packPixels (Node.cls n) pixels) as [pd|e0] eqn:Hp.
      - destruct (packRawFrame_raise _ _ _ _ _ _ Hp H) as [_ ->]. reflexivity.
      - rewrite (packRawFrame_pack_raise _ _ _ _ Hp) in H. inversion H.
        reflexivity. }
    rewrite Ep, node_set_packet_same. reflexivity.
  - intros pkt p H. unfold Node.sendRawFrame. rewrite H.
    apply packRawFrame_inv in H. destruct H as (_ & _ & _ & -> & _).
    destruct n as [s h po v d b c pk pdata out].
    cbn [Node.host Node.port Node.sock Node.set_packet Node.packet Node.cls
         Node.verbose Node.drv Node.UDP_BUF_SIZE Node.packetData Node.stdout].
    destruct (sock_sendto K pkt (h, po) s) as [[sent|] s'];
      cbn [Node.set_sock Node.verbose Node.sock Node.host Node.port Node.drv
           Node.UDP_BUF_SIZE Node.cls Node.packet Node.packetData Node.stdout];
      [destruct v|];
      cbn [snd fst Node.print Node.sock Node.packet seq set_seq];
      repeat apply conj; try reflexivity; intros H;
        (reflexivity || congruence).
Qed.

(** X27. [calcCrc] returns an integer in 0..2^32-1 for every byte string,
    so packing a checksum as an ['I'] field never raises and reading the four
    bytes back gives the checksum. *)
Theorem calcCrc_packs (data : bytes) :
  0 <= calcCrc data < 2 ^ 32 /\
  struct.pack [struct.I] [calcCrc data] = Ok (struct.be_bytes 4 (calcCrc data)) /\
  struct.be_uint (struct.be_bytes 4 (calcCrc data)) = calcCrc data.
Proof.
  pose proof (crc32_u32 data) as H. unfold u32 in H. fold (calcCrc data) in H.
  split; [exact H|]. split.
  - rewrite pack_I. apply pack_field_ok. cbn [struct.size].
    change (256 ^ Z.of_nat 4) with (2 ^ 32). exact H.
  - apply be_uint_be_bytes. change (256 ^ Z.of_nat 4) with (2 ^ 32). exact H.
Qed.
